(** * Conditional-access resource lifecycle: a shallow embedding

    The development follows two Go sources of the provider:

    - package [msgraph]: [AuthenticationStrengthPoliciesClient] and its
      [Update] method;
    - package [conditionalaccess]: the resource functions
      [authenticationStrengthResourceCreate], [..Update], [..Read] and
      [..Delete] together with the closures they hand to the polling
      helpers.

    Go values of type [interface{}] are an inductive [value]; the
    Terraform [ResourceData] is an attribute map; the remote service and
    the transport are a parameter of every function (a record of request
    handlers over an abstract service state), and every request that is
    issued is appended to a log so that ordering properties can be stated.
    A Go panic is an explicit outcome. *)

From stdpp Require Import gmap strings list fin_maps.
From Stdlib Require Import ZArith.

#[local] Set Warnings "-register-all".
#[local] Open Scope Z_scope.

(** ** Dynamically typed values ([interface{}]) *)

Inductive value :=
  | VNil
  | VBool (b : bool)
  | VStr (s : string)
  | VList (l : list value)
  | VMap (m : gmap string value).

(** Number of constructors of a value; the measure for induction. *)
Fixpoint value_size (v : value) : nat :=
  match v with
  | VList l => S (foldr (λ x n, (value_size x + n)%nat) 0%nat l)
  | VMap m => S (map_fold (λ _ x n, (value_size x + n)%nat) 0%nat m)
  | _ => 1%nat
  end.

(** [reflect.DeepEqual] on the values above: same dynamic type, lists
    element-wise, maps of equal length whose keys agree with deeply equal
    entries. *)
Fixpoint DeepEqual (a b : value) {struct a} : bool :=
  match a, b with
  | VNil, VNil => true
  | VBool x, VBool y => bool_decide (x = y)
  | VStr x, VStr y => bool_decide (x = y)
  | VList l1, VList l2 =>
      (fix go (l1 l2 : list value) {struct l1} : bool :=
         match l1, l2 with
         | [], [] => true
         | x :: l1', y :: l2' => DeepEqual x y && go l1' l2'
         | _, _ => false
         end) l1 l2
  | VMap m1, VMap m2 =>
      bool_decide (size m1 = size m2) &&
      map_fold (λ k x acc,
                 match m2 !! k with
                 | Some y => DeepEqual x y
                 | None => false
                 end && acc) true m1
  | _, _ => false
  end.

(** A value is the zero value of its type ([GetOk] reports such values as
    not set). *)
Definition is_zero (v : value) : bool :=
  match v with
  | VNil => true
  | VBool b => negb b
  | VStr s => bool_decide (s = EmptyString)
  | VList l => bool_decide (l = [])
  | VMap m => bool_decide (size m = 0%nat)
  end.

(** Indexing a Go map: a missing key reads as the nil interface. *)
Definition index (m : gmap string value) (k : string) : value :=
  default VNil (m !! k).

(** ** Outcomes, and a state monad with panics *)

(** Go's [error] values are compared and printed through their message. *)
Definition error := string.

Definition errors_New (msg : string) : error := msg.

(** [fmt.Errorf] with a single trailing [%v] verb, as the client uses it. *)
Definition fmt_Errorf (prefix : string) (err : error) : error :=
  String.app prefix err.

Inductive outcome (A : Type) :=
  | Val (a : A)
  | Panic (msg : string).
Arguments Val {A} a.
Arguments Panic {A} msg.

Definition M (S A : Type) : Type := S → outcome A * S.

#[global] Instance M_ret {S} : MRet (M S) := λ A a s, (Val a, s).

#[global] Instance M_bind {S} : MBind (M S) := λ A B k m s,
  match m s with
  | (Val a, s') => k a s'
  | (Panic msg, s') => (Panic msg, s')
  end.

Definition panic {S A} (msg : string) : M S A := λ s, (Panic msg, s).

Definition gets {S A} (f : S → A) : M S A := λ s, (Val (f s), s).

Definition modify {S} (f : S → S) : M S unit := λ s, (Val tt, f s).

(** [defer cleanup; body]: the deferred call runs when the body returns
    and also when it panics. *)
Definition defer {S A} (cleanup : S → S) (body : M S A) : M S A := λ s,
  let '(o, s') := body s in (o, cleanup s').

(** Dereferencing a pointer, and reading through an embedded pointer. *)
Definition deref {S A} (p : option A) : M S A :=
  match p with
  | Some a => mret a
  | None => panic "invalid memory address or nil pointer dereference"
  end.

(** Type assertions [x.(T)] in their panicking, single-result form. *)
Definition as_string {S} (v : value) : M S string :=
  match v with VStr s => mret s | _ => panic "interface conversion: not a string" end.

Definition as_bool {S} (v : value) : M S bool :=
  match v with VBool b => mret b | _ => panic "interface conversion: not a bool" end.

Definition as_list {S} (v : value) : M S (list value) :=
  match v with VList l => mret l | _ => panic "interface conversion: not a []interface{}" end.

Definition as_map {S} (v : value) : M S (gmap string value) :=
  match v with
  | VMap m => mret m
  | _ => panic "interface conversion: not a map[string]interface{}"
  end.

(** [l[0]] *)
Definition first {S} (l : list value) : M S value :=
  match l with x :: _ => mret x | [] => panic "index out of range [0] with length 0" end.

Definition StatusNotFound : Z := 404.
Definition StatusNoContent : Z := 204.

(** ** Package msgraph: the authentication strength policies client *)

Module msgraph.

Record AuthenticationStrengthPolicy := {
  ID : option string;
  DisplayName : option string;
  Description : option string;
  PolicyType : option string;
  AllowedCombinations : option (list string);
}.

Inductive ConsistencyFailureFunc := RetryOn404ConsistencyFailureFunc.

Record PatchHttpRequestInput := {
  Body : string;
  ConsistencyFailure : option ConsistencyFailureFunc;
  ValidStatusCodes : list Z;
  Uri_Entity : string;
}.

(** What the base client and the JSON encoder do is not part of this
    source: they are the fields of [BaseClient], over an abstract state
    [R] of the remote service. [Patch] keeps the status and the error of
    the four results, the two the caller does not discard. *)
Record BaseClient (R : Type) := {
  json_Marshal : AuthenticationStrengthPolicy → string + error;
  Patch : PatchHttpRequestInput → R → (Z * option error) * R;
}.
Arguments json_Marshal {R} _ _.
Arguments Patch {R} _ _ _.

(** The client's view of the world: the remote service and the requests
    sent so far. *)
Record wire (R : Type) := {
  service : R;
  sent : list PatchHttpRequestInput;
}.
Arguments service {R} _.
Arguments sent {R} _.

Section Client.
Context {R : Type}.
Variable c : BaseClient R.

Definition BaseClient_Patch (input : PatchHttpRequestInput)
  : M (wire R) (Z * option error) := λ w,
  let '(res, r') := Patch c input (service w) in
  (Val res, {| service := r'; sent := sent w ++ [input] |}).

(** [AuthenticationStrengthPoliciesClient.Update] *)
Definition Update (policy : AuthenticationStrengthPolicy)
  : M (wire R) (Z * option error) :=
  let status := 0 in
  match ID policy with
  | None =>
      mret (status,
            Some (errors_New "cannot update AuthenticationStrengthPolicy with nil ID"))
  | Some id =>
      match json_Marshal c policy with
      | inr err => mret (status, Some (fmt_Errorf "json.Marshal(): " err))
      | inl body =>
          '(status, err) ← BaseClient_Patch {|
              Body := body;
              ConsistencyFailure := Some RetryOn404ConsistencyFailureFunc;
              ValidStatusCodes := [StatusNoContent];
              Uri_Entity :=
                String.app "/policies/authenticationStrengthPolicies/" id;
            |};
          match err with
          | Some e =>
              mret (status,
                    Some (fmt_Errorf
                            "AuthenticationStrengthPoliciesClient.BaseClient.Patch(): " e))
          | None => mret (status, None)
          end
      end
  end.

End Client.

End msgraph.


(** ** Package msgraph: the other methods of the policies client

    [List], [Create], [Get] and [Delete] of
    [AuthenticationStrengthPoliciesClient]. The base client, the reader of
    a response body and the JSON codec are outside this source and are
    the fields of [Transport]. *)

Module policies.

(** An [http.Response] as far as the client uses it: what [io.ReadAll]
    gives for its body, the bytes or a read error. *)
Record Response := {
  ReadAll : string + error;
}.

Section Client.

(** [odata.Query] is passed through unread. *)
Context {Query R : Type}.

Record GetHttpRequestInput := {
  Get_ConsistencyFailureFunc : option msgraph.ConsistencyFailureFunc;
  Get_OData : Query;
  Get_ValidStatusCodes : list Z;
  Get_Uri_Entity : string;
}.

Record PostHttpRequestInput := {
  Post_Body : string;
  Post_ValidStatusCodes : list Z;
  Post_Uri_Entity : string;
}.

Record DeleteHttpRequestInput := {
  Delete_ConsistencyFailureFunc : option msgraph.ConsistencyFailureFunc;
  Delete_ValidStatusCodes : list Z;
  Delete_Uri_Entity : string;
}.

Inductive exchange :=
  | SentGet (input : GetHttpRequestInput)
  | SentPost (input : PostHttpRequestInput)
  | SentDelete (input : DeleteHttpRequestInput).

(** Each method of the base client gives the response, the status and the
    error (the OData result is discarded by every caller). *)
Record Transport := {
  BaseClient_Get : GetHttpRequestInput → R →
                   (option Response * Z * option error) * R;
  BaseClient_Post : PostHttpRequestInput → R →
                    (option Response * Z * option error) * R;
  BaseClient_Delete : DeleteHttpRequestInput → R →
                      (option Response * Z * option error) * R;
  json_Marshal : msgraph.AuthenticationStrengthPolicy → string + error;
  json_Unmarshal : string → msgraph.AuthenticationStrengthPolicy + error;
  json_Unmarshal_value :
    string → list msgraph.AuthenticationStrengthPolicy + error;
}.

Record wire := {
  service : R;
  sent : list exchange;
}.

Variable c : Transport.

Definition exchanged {A} (x : exchange) (h : R → A * R) : M wire A := λ w,
  let '(a, r') := h (service w) in
  (Val a, {| service := r'; sent := sent w ++ [x] |}).

Definition entity : string := "/policies/authenticationStrengthPolicies".

(** [fmt.Sprintf("/policies/authenticationStrengthPolicies/%s", id)] *)
Definition entity_of (id : string) : string :=
  String.app entity (String.app "/" id).

(** The part the three reading methods share: read the body of the
    response, then decode it. *)
Definition decoded {A} (resp : option Response) (status : Z)
    (unmarshal : string → A + error) : M wire (option A * Z * option error) :=
  resp ← deref resp;
  match ReadAll resp with
  | inr err => mret (None, status, Some (fmt_Errorf "io.ReadAll(): " err))
  | inl respBody =>
      match unmarshal respBody with
      | inr err =>
          mret (None, status, Some (fmt_Errorf "json.Unmarshal(): " err))
      | inl data => mret (Some data, status, None)
      end
  end.

(** [List] *)
Definition List (query : Query)
  : M wire (option (list msgraph.AuthenticationStrengthPolicy)
            * Z * option error) :=
  let input := {| Get_ConsistencyFailureFunc := None;
                  Get_OData := query;
                  Get_ValidStatusCodes := [200];
                  Get_Uri_Entity := entity |} in
  '(resp, status, err) ← exchanged (SentGet input) (BaseClient_Get c input);
  match err with
  | Some e =>
      mret (None, status,
            Some (fmt_Errorf
                    "AuthenticationStrengthPoliciesClient.BaseClient.Get(): " e))
  | None => decoded resp status (json_Unmarshal_value c)
  end.

(** [Create] *)
Definition Create (policy : msgraph.AuthenticationStrengthPolicy)
  : M wire (option msgraph.AuthenticationStrengthPolicy * Z * option error) :=
  let status := 0 in
  match json_Marshal c policy with
  | inr err => mret (None, status, Some (fmt_Errorf "json.Marshal(): " err))
  | inl body =>
      let input := {| Post_Body := body;
                      Post_ValidStatusCodes := [201];
                      Post_Uri_Entity := entity |} in
      '(resp, status, err) ←
        exchanged (SentPost input) (BaseClient_Post c input);
      match err with
      | Some e =>
          mret (None, status,
                Some (fmt_Errorf
                        "AuthenticationStrengthPoliciesClient.BaseClient.Post(): "
                        e))
      | None => decoded resp status (json_Unmarshal c)
      end
  end.

(** [Get] *)
Definition Get (id : string) (query : Query)
  : M wire (option msgraph.AuthenticationStrengthPolicy * Z * option error) :=
  let input := {| Get_ConsistencyFailureFunc :=
                    Some msgraph.RetryOn404ConsistencyFailureFunc;
                  Get_OData := query;
                  Get_ValidStatusCodes := [200];
                  Get_Uri_Entity := entity_of id |} in
  '(resp, status, err) ← exchanged (SentGet input) (BaseClient_Get c input);
  match err with
  | Some e =>
      mret (None, status,
            Some (fmt_Errorf
                    "AuthenticationStrengthPoliciesClient.BaseClient.Get(): " e))
  | None => decoded resp status (json_Unmarshal c)
  end.

(** [Delete] *)
Definition Delete (id : string) : M wire (Z * option error) :=
  let input := {| Delete_ConsistencyFailureFunc :=
                    Some msgraph.RetryOn404ConsistencyFailureFunc;
                  Delete_ValidStatusCodes := [StatusNoContent];
                  Delete_Uri_Entity := String.app (entity_of id) "/$ref" |} in
  '(_, status, err) ←
    exchanged (SentDelete input) (BaseClient_Delete c input);
  match err with
  | Some e =>
      mret (status,
            Some (fmt_Errorf
                    "AuthenticationStrengthPoliciesClient.BaseClient.Delete(): "
                    e))
  | None => mret (status, None)
  end.

End Client.

Arguments GetHttpRequestInput : clear implicits.
Arguments exchange : clear implicits.
Arguments Transport : clear implicits.
Arguments wire : clear implicits.

End policies.


(** ** Package conditionalaccess: the resource *)

Module conditionalaccess.

(** *** The location types of the Graph SDK

    Their declarations are outside this source; the fields below are the
    ones the resource reads or writes. The base is embedded by pointer, so
    [ipnl.ID] reads through a pointer that may be nil. *)

Record BaseauthenticationStrength := {
  ID : option string;
  DisplayName : option string;
}.

Record IPauthenticationStrength := {
  IPBase : option BaseauthenticationStrength;
  IPRanges : option (list string);
  IsTrusted : option bool;
}.

Record CountryauthenticationStrength := {
  CountryBase : option BaseauthenticationStrength;
  CountriesAndRegions : option (list string);
  IncludeUnknownCountriesAndRegions : option bool;
}.

(** The interface value behind the pointer that [client.Get] returns: its
    dynamic type is one of the two location structs, or anything else. *)
Inductive authenticationStrength :=
  | IsIP (ipnl : IPauthenticationStrength)
  | IsCountry (cnl : CountryauthenticationStrength)
  | IsOther (dynamic_type : string).

(** *** Requests and the client *)

Inductive request :=
  | CreateIPReq (p : IPauthenticationStrength)
  | CreateCountryReq (p : CountryauthenticationStrength)
  | GetReq (id : string)
  | GetIPReq (id : string)
  | GetCountryReq (id : string)
  | UpdateIPReq (p : IPauthenticationStrength)
  | UpdateCountryReq (p : CountryauthenticationStrength)
  | DeleteReq (id : string).

(** A logged request, with the value the transport's [DisableRetries] flag
    had when it was issued. *)
Record call := {
  issued : request;
  retries_disabled : bool;
}.

(** The named-locations client of the SDK: one handler per method, each
    from the [DisableRetries] flag, the arguments and the state of the
    remote service to the method's results and the next state. *)
Record Client (R : Type) := {
  serve_CreateIP : bool → IPauthenticationStrength → R →
                   (option IPauthenticationStrength * Z * option error) * R;
  serve_CreateCountry : bool → CountryauthenticationStrength → R →
                   (option CountryauthenticationStrength * Z * option error) * R;
  serve_Get : bool → string → R →
              (option authenticationStrength * Z * option error) * R;
  serve_GetIP : bool → string → R →
                (option IPauthenticationStrength * Z * option error) * R;
  serve_GetCountry : bool → string → R →
                (option CountryauthenticationStrength * Z * option error) * R;
  serve_UpdateIP : bool → IPauthenticationStrength → R → (Z * option error) * R;
  serve_UpdateCountry : bool → CountryauthenticationStrength → R →
                        (Z * option error) * R;
  serve_Delete : bool → string → R → (Z * option error) * R;
}.
Arguments serve_CreateIP {R} _ _ _ _.
Arguments serve_CreateCountry {R} _ _ _ _.
Arguments serve_Get {R} _ _ _ _.
Arguments serve_GetIP {R} _ _ _ _.
Arguments serve_GetCountry {R} _ _ _ _.
Arguments serve_UpdateIP {R} _ _ _ _.
Arguments serve_UpdateCountry {R} _ _ _ _.
Arguments serve_Delete {R} _ _ _ _.

(** *** Resource data and diagnostics *)

(** [schema.ResourceData]: the identifier, the attributes as [Get] reads
    and [Set] writes them, and the attributes of the prior state that
    [HasChange] compares with. The type belongs to the plugin SDK; the
    attribute map is not tied to the keys of the resource schema, and an
    attribute that is not set reads as nil. *)
Record ResourceData := {
  Id : string;
  attrs : gmap string value;
  prior : gmap string value;
}.

Inductive fmt_arg :=
  | ArgStr (s : string)
  | ArgInt (z : Z)
  | ArgErr (e : error).

(** A diagnostic keeps its cause, the format of its summary and the
    arguments of the format apart. *)
Record Diagnostic := {
  Detail : error;
  Summary : string;
  Args : list fmt_arg;
  AttributePath : string;
}.

Definition Diagnostics := list Diagnostic.

Definition tf_ErrorDiagPathF (err : error) (attr summary : string)
    (a : list fmt_arg) : Diagnostics :=
  [{| Detail := err; Summary := summary; Args := a; AttributePath := attr |}].

Definition tf_ErrorDiagF (err : error) (summary : string) (a : list fmt_arg)
  : Diagnostics :=
  tf_ErrorDiagPathF err EmptyString summary a.

(** *** The state the resource functions run in *)

Record state (R : Type) := {
  d : ResourceData;
  remote : R;
  DisableRetries : bool;
  requests : list call;
}.
Arguments d {R} _.
Arguments remote {R} _.
Arguments DisableRetries {R} _.
Arguments requests {R} _.

Definition set_d {R} (f : ResourceData → ResourceData) (s : state R) : state R :=
  {| d := f (d s); remote := remote s;
     DisableRetries := DisableRetries s; requests := requests s |}.

Definition set_DisableRetries {R} (b : bool) (s : state R) : state R :=
  {| d := d s; remote := remote s; DisableRetries := b; requests := requests s |}.

(** The outcome of a block that may [return] from the enclosing function. *)
Inductive flow (A : Type) :=
  | Return (diags : Diagnostics)
  | Continue (a : A).
Arguments Return {A} diags.
Arguments Continue {A} a.

(** The value [d.Set] stores for a [*string]. *)
Definition of_string_ptr (p : option string) : value :=
  match p with Some s => VStr s | None => VNil end.

Section Resource.

Context {R : Type}.

(** The client, the flatten and expand helpers of the package, and the
    identifier [base] that the create function reads without declaring
    it: none of them is part of this source. *)
Variable client : Client R.
Variable flattenIPauthenticationStrength :
  option IPauthenticationStrength → list value.
Variable flattenCountryauthenticationStrength :
  option CountryauthenticationStrength → list value.
Variable expandIPauthenticationStrength :
  list value → option IPauthenticationStrength.
Variable expandCountryauthenticationStrength :
  list value → option CountryauthenticationStrength.
Variable base : BaseauthenticationStrength.

Abbreviation St := (state R).

(** Issue one request: log it with the current flag, run its handler. *)
Definition send {A} (rq : request) (h : bool → R → A * R) : M St A := λ s,
  let '(a, r') := h (DisableRetries s) (remote s) in
  (Val a,
   {| d := d s; remote := r'; DisableRetries := DisableRetries s;
      requests := requests s
                  ++ [{| issued := rq; retries_disabled := DisableRetries s |}] |}).

Definition CreateIP (p : IPauthenticationStrength) :=
  send (CreateIPReq p) (λ f, serve_CreateIP client f p).
Definition CreateCountry (p : CountryauthenticationStrength) :=
  send (CreateCountryReq p) (λ f, serve_CreateCountry client f p).
Definition Get (id : string) :=
  send (GetReq id) (λ f, serve_Get client f id).
Definition GetIP (id : string) :=
  send (GetIPReq id) (λ f, serve_GetIP client f id).
Definition GetCountry (id : string) :=
  send (GetCountryReq id) (λ f, serve_GetCountry client f id).
Definition UpdateIP (p : IPauthenticationStrength) :=
  send (UpdateIPReq p) (λ f, serve_UpdateIP client f p).
Definition UpdateCountry (p : CountryauthenticationStrength) :=
  send (UpdateCountryReq p) (λ f, serve_UpdateCountry client f p).
Definition Delete (id : string) :=
  send (DeleteReq id) (λ f, serve_Delete client f id).

(** [d.Id()], [d.SetId], [d.Get], [d.GetOk], [d.HasChange], [tf.Set] *)
Definition d_Id : M St string := gets (λ s, Id (d s)).

Definition d_SetId (id : string) : M St unit :=
  modify (set_d (λ rd, {| Id := id; attrs := attrs rd; prior := prior rd |})).

Definition d_Get (key : string) : M St value :=
  gets (λ s, index (attrs (d s)) key).

Definition d_GetOk (key : string) : M St (value * bool) :=
  gets (λ s, let v := index (attrs (d s)) key in (v, negb (is_zero v))).

Definition d_HasChange (key : string) : M St bool :=
  gets (λ s, negb (DeepEqual (index (prior (d s)) key) (index (attrs (d s)) key))).

Definition tf_Set (key : string) (v : value) : M St unit :=
  modify (set_d (λ rd,
    {| Id := Id rd; attrs := <[key := v]> (attrs rd); prior := prior rd |})).

(** [authenticationStrengthResourceRead]. The two type assertions on
    [location] test for different dynamic types, so at most one of the two
    [if] blocks runs: they are the branches of one match. *)
Definition authenticationStrengthResourceRead : M St Diagnostics :=
  id ← d_Id;
  '(result, status, err) ← Get id;
  if bool_decide (is_Some err) && (status =? StatusNotFound) then
    d_SetId EmptyString;; mret (nil : Diagnostics)
  else
    match result with
    | None => mret (tf_ErrorDiagF (errors_New "Bad API response") "Result is nil" [])
    | Some (IsIP ipnl) =>
        b ← deref (IPBase ipnl);
        match ID b with
        | None =>
            mret (tf_ErrorDiagF (errors_New "Bad API response")
                    "ID is nil for returned IP Named Location" [])
        | Some ipnl_id =>
            d_SetId ipnl_id;;
            tf_Set "display_name" (of_string_ptr (DisplayName b));;
            tf_Set "ip" (VList (flattenIPauthenticationStrength (Some ipnl)));;
            mret (nil : Diagnostics)
        end
    | Some (IsCountry cnl) =>
        b ← deref (CountryBase cnl);
        match ID b with
        | None =>
            mret (tf_ErrorDiagF (errors_New "Bad API response")
                    "ID is nil for returned Country Named Location" [])
        | Some cnl_id =>
            d_SetId cnl_id;;
            tf_Set "display_name" (of_string_ptr (DisplayName b));;
            tf_Set "country"
              (VList (flattenCountryauthenticationStrength (Some cnl)));;
            mret (nil : Diagnostics)
        end
    | Some (IsOther _) => mret (nil : Diagnostics)
    end.

(** [authenticationStrengthResourceCreate] *)
Definition authenticationStrengthResourceCreate : M St Diagnostics :=
  displayName ← d_Get "display_name" ≫= as_string;
  description ← d_Get "description" ≫= as_string;
  '(v, ok) ← d_GetOk "ip";
  if (ok : bool) then
    l ← as_list v;
    properties ← deref (expandIPauthenticationStrength l);
    let properties :=
      {| IPBase := Some base; IPRanges := IPRanges properties;
         IsTrusted := IsTrusted properties |} in
    '(ipLocation, _, err) ← CreateIP properties;
    match err with
    | Some e => mret (tf_ErrorDiagF e "Could not create named location" [])
    | None =>
        ipLocation ← deref ipLocation;
        b ← deref (IPBase ipLocation);
        match ID b with
        | Some (String c id') =>
            d_SetId (String c id');; authenticationStrengthResourceRead
        | _ =>
            mret (tf_ErrorDiagF (errors_New "Bad API response")
                    "Object ID returned for named location is nil/empty" [])
        end
    end
  else
    '(v, ok) ← d_GetOk "country";
    if (ok : bool) then
      l ← as_list v;
      properties ← deref (expandCountryauthenticationStrength l);
      let properties :=
        {| CountryBase := Some base;
           CountriesAndRegions := CountriesAndRegions properties;
           IncludeUnknownCountriesAndRegions :=
             IncludeUnknownCountriesAndRegions properties |} in
      '(countryLocation, _, err) ← CreateCountry properties;
      match err with
      | Some e => mret (tf_ErrorDiagF e "Could not create named location" [])
      | None =>
          countryLocation ← deref countryLocation;
          b ← deref (CountryBase countryLocation);
          match ID b with
          | Some (String c id') =>
              d_SetId (String c id');; authenticationStrengthResourceRead
          | _ =>
              mret (tf_ErrorDiagF (errors_New "Bad API response")
                      "Object ID returned for named location is nil/empty" [])
          end
      end
    else
      mret (tf_ErrorDiagF (errors_New "one of `ip` or `country` must be specified")
              "Unable to determine named location type" []).

(** *** Polling *)

(** [context.Context]: of a context the model keeps how many probes fit
    before its deadline. *)
Record Context := {
  probes_before_deadline : nat;
}.

Definition Probe : Type := M St (value * string * option error).

Record StateChangeConf := {
  Pending : list string;
  Target : list string;
  Timeout : nat;
  MinTimeout : Z;
  ContinuousTargetOccurence : nat;
  Refresh : option Probe;
}.

(** Modelled from the spec: the state-refresh polling primitive
    ([WaitForStateContext] of the plugin SDK, which is not part of this
    source), section 4.1. The refresh function is invoked once per round;
    an error aborts at once; a target label increments the count of
    consecutive target observations and succeeds when the required number
    is reached; any other label, pending or unrecognised, resets the count
    and the wait goes on; when the deadline is reached the wait fails with
    a timeout error. Time is counted in probes and the cadence is left
    out. *)
Fixpoint poll (conf : StateChangeConf) (refresh : Probe) (rounds seen : nat)
  : M St (option error) :=
  match rounds with
  | O => mret (Some (errors_New "timeout while waiting for state"))
  | S rounds' =>
      '(_, label, err) ← refresh;
      match err with
      | Some e => mret (Some e)
      | None =>
          if bool_decide (label ∈ Target conf) then
            if bool_decide (ContinuousTargetOccurence conf ≤ S seen)%nat
            then mret None
            else poll conf refresh rounds' (S seen)
          else poll conf refresh rounds' 0%nat
      end
  end.

Definition WaitForStateContext (conf : StateChangeConf) : M St (option error) :=
  match Refresh conf with
  | None => panic "invalid memory address or nil pointer dereference"
  | Some refresh => poll conf refresh (Timeout conf) 0%nat
  end.

(** The number of consecutive not-found answers that the deletion wait
    asks for is fixed in the helpers package, outside this source. *)
Variable deletionOccurrences : nat.

(** Modelled from the spec: the labels of the delete-confirmation check
    (they are given in [helpers.WaitForDeletion]; the helpers package is
    not part of this source), section 4.3: [Pending] while the resource is
    still visible, [Absent] when it is gone, and an error is passed on as
    a hard failure. *)
Definition deletionRefresh (f : M St (option bool * option error)) : Probe :=
  '(still_exists, err) ← f;
  match err, still_exists with
  | Some e, _ => mret (VNil, "Error", Some e)
  | None, None => mret (VNil, "Error", Some (errors_New "exists was nil"))
  | None, Some true => mret (VStr "stub", "Pending", None)
  | None, Some false => mret (VStr "stub", "Absent", None)
  end.

(** Modelled from the spec: [helpers.WaitForDeletion] (not part of this
    source), section 4.3: the labels of the check are polled with the
    primitive above until the context's deadline. *)
Definition WaitForDeletion (ctx : Context)
    (f : M St (option bool * option error)) : M St (option error) :=
  WaitForStateContext {|
    Pending := ["Pending"];
    Target := ["Absent"];
    Timeout := probes_before_deadline ctx;
    MinTimeout := 1;
    ContinuousTargetOccurence := deletionOccurrences;
    Refresh := Some (deletionRefresh f);
  |}.

(** *** Update *)

(** The refresh closure of the [ip] branch; [v] is the configured [ip]
    block it captures. *)
Definition updateRefreshFunc_ip (v : value) : Probe :=
  id ← d_Id;
  '(result, _, err) ← GetIP id;
  match err with
  | Some e => mret (VNil, "Error", Some e)
  | None =>
      match flattenIPauthenticationStrength result with
      | locationRaw0 :: _ =>
          location ← as_map locationRaw0;
          l ← as_list v;
          ip ← first l ≫= as_map;
          if negb (DeepEqual (index location "ip_ranges") (index ip "ip_ranges"))
          then mret (VStr "stub", "Pending", None)
          else
            location_trusted ← as_bool (index location "trusted");
            ip_trusted ← as_bool (index ip "trusted");
            if negb (eqb location_trusted ip_trusted)
            then mret (VStr "stub", "Pending", None)
            else mret (VStr "stub", "Updated", None)
      | [] => mret (VStr "stub", "Updated", None)
      end
  end.

(** The refresh closure of the [country] branch. *)
Definition updateRefreshFunc_country (v : value) : Probe :=
  id ← d_Id;
  '(result, _, err) ← GetCountry id;
  match err with
  | Some e => mret (VNil, "Error", Some e)
  | None =>
      match flattenCountryauthenticationStrength result with
      | locationRaw0 :: _ =>
          location ← as_map locationRaw0;
          l ← as_list v;
          ip ← first l ≫= as_map;
          if negb (DeepEqual (index location "countries_and_regions")
                             (index ip "countries_and_regions"))
          then mret (VStr "stub", "Pending", None)
          else
            location_unknown ←
              as_bool (index location "include_unknown_countries_and_regions");
            ip_unknown ←
              as_bool (index ip "include_unknown_countries_and_regions");
            if negb (eqb location_unknown ip_unknown)
            then mret (VStr "stub", "Pending", None)
            else mret (VStr "stub", "Updated", None)
      | [] => mret (VStr "stub", "Updated", None)
      end
  end.

(** [authenticationStrengthResourceUpdate] *)
Definition authenticationStrengthResourceUpdate (ctx : Context)
  : M St Diagnostics :=
  id ← d_Id;
  changed ← d_HasChange "display_name";
  base ← (if (changed : bool) then
            displayName ← d_Get "display_name" ≫= as_string;
            mret {| ID := Some id; DisplayName := Some displayName |}
          else mret {| ID := Some id; DisplayName := None |});
  '(v, ok) ← d_GetOk "ip";
  r ← (if (ok : bool) then
         l ← as_list v;
         properties ← deref (expandIPauthenticationStrength l);
         let properties :=
           {| IPBase := Some base; IPRanges := IPRanges properties;
              IsTrusted := IsTrusted properties |} in
         '(_, err) ← UpdateIP properties;
         match err with
         | Some e =>
             mret (Return (tf_ErrorDiagF e
                     "Could not update named location with ID %q: %+v"
                     [ArgStr id; ArgErr e]))
         | None => mret (Continue (Some (updateRefreshFunc_ip v)))
         end
       else mret (Continue None));
  match r with
  | Return diags => mret diags
  | Continue updateRefreshFunc =>
      '(v, ok) ← d_GetOk "country";
      r ← (if (ok : bool) then
             l ← as_list v;
             properties ← deref (expandCountryauthenticationStrength l);
             let properties :=
               {| CountryBase := Some base;
                  CountriesAndRegions := CountriesAndRegions properties;
                  IncludeUnknownCountriesAndRegions :=
                    IncludeUnknownCountriesAndRegions properties |} in
             '(_, err) ← UpdateCountry properties;
             match err with
             | Some e =>
                 mret (Return (tf_ErrorDiagF e
                         "Could not update named location with ID %q: %+v"
                         [ArgStr id; ArgErr e]))
             | None => mret (Continue (Some (updateRefreshFunc_country v)))
             end
           else mret (Continue updateRefreshFunc));
      match r with
      | Return diags => mret diags
      | Continue updateRefreshFunc =>
          err ← WaitForStateContext {|
            Pending := ["Pending"];
            Target := ["Updated"];
            Timeout := probes_before_deadline ctx;
            MinTimeout := 5;
            ContinuousTargetOccurence := 5;
            Refresh := updateRefreshFunc;
          |};
          match err with
          | Some e =>
              mret (tf_ErrorDiagF e
                      "waiting for update of named location with ID %q"
                      [ArgStr id])
          | None => authenticationStrengthResourceRead
          end
      end
  end.

(** *** Delete *)

(** The closure handed to [helpers.WaitForDeletion]: the deferred call
    resets the flag that the first statement sets. *)
Definition deletionCheck (authenticationStrengthId : string)
  : M St (option bool * option error) :=
  defer (set_DisableRetries false) (
    modify (set_DisableRetries true);;
    '(_, status, err) ← Get authenticationStrengthId;
    match err with
    | Some e =>
        if status =? StatusNotFound
        then mret (Some false, None)
        else mret (None, Some e)
    | None => mret (Some true, None)
    end).

Definition is_trusted (resp : option IPauthenticationStrength) : bool :=
  match resp with
  | Some l => match IsTrusted l with Some b => b | None => false end
  | None => false
  end.

(** [authenticationStrengthResourceDelete] *)
Definition authenticationStrengthResourceDelete (ctx : Context)
  : M St Diagnostics :=
  authenticationStrengthId ← d_Id;
  '(_, ok) ← d_GetOk "ip";
  r ← (if (ok : bool) then
         '(resp, status, err) ← GetIP authenticationStrengthId;
         match err with
         | Some e =>
             if status =? StatusNotFound
             then mret (Return [])
             else mret (Return (tf_ErrorDiagPathF e "id"
                          "Retrieving named location with ID %q"
                          [ArgStr authenticationStrengthId]))
         | None =>
             if is_trusted resp then
               let properties :=
                 {| IPBase := Some {| ID := Some authenticationStrengthId;
                                      DisplayName := None |};
                    IPRanges := None;
                    IsTrusted := Some false |} in
               '(_, err) ← UpdateIP properties;
               match err with
               | Some e =>
                   mret (Return (tf_ErrorDiagF e
                           "Updating named location with ID %q"
                           [ArgStr authenticationStrengthId]))
               | None => mret (Continue tt)
               end
             else mret (Continue tt)
         end
       else mret (Continue tt));
  match r with
  | Return diags => mret diags
  | Continue _ =>
      '(_, ok) ← d_GetOk "country";
      r ← (if (ok : bool) then
             '(_, status, err) ← GetCountry authenticationStrengthId;
             match err with
             | Some e =>
                 if status =? StatusNotFound
                 then mret (Return [])
                 else mret (Return (tf_ErrorDiagPathF e "id"
                              "Retrieving named location with ID %q"
                              [ArgStr authenticationStrengthId]))
             | None => mret (Continue tt)
             end
           else mret (Continue tt));
      match r with
      | Return diags => mret diags
      | Continue _ =>
          '(status, err) ← Delete authenticationStrengthId;
          match err with
          | Some e =>
              mret (tf_ErrorDiagPathF e "id"
                      "Deleting named location with ID %q, got status %d"
                      [ArgStr authenticationStrengthId; ArgInt status])
          | None =>
              err ← WaitForDeletion ctx (deletionCheck authenticationStrengthId);
              match err with
              | Some e =>
                  mret (tf_ErrorDiagF e
                          "waiting for deletion of named location with ID %q"
                          [ArgStr authenticationStrengthId])
              | None => mret (nil : Diagnostics)
              end
          end
      end
  end.

End Resource.

End conditionalaccess.

(** ** A scripted client and sample helpers

    The statements below are universal in the client and in the helpers
    of the package. To run the functions on concrete inputs, the scripted
    client answers each request with the next reply of a script, and the
    sample helpers flatten a location into the block shape the refresh
    closures index. *)

Module scripted.

Import conditionalaccess.

Inductive reply :=
  | ReplyLocation (l : option authenticationStrength) (status : Z)
                  (err : option error)
  | ReplyStatus (status : Z) (err : option error).

Definition script := list reply.

Definition unscripted : error := "no reply scripted".

Definition next_location (s : script)
  : (option authenticationStrength * Z * option error) * script :=
  match s with
  | ReplyLocation l status err :: rest => ((l, status, err), rest)
  | _ => ((None, 0, Some unscripted), s)
  end.

Definition next_status (s : script) : (Z * option error) * script :=
  match s with
  | ReplyStatus status err :: rest => ((status, err), rest)
  | _ => ((0, Some unscripted), s)
  end.

Definition only_ip (l : option authenticationStrength)
  : option IPauthenticationStrength :=
  match l with Some (IsIP ipnl) => Some ipnl | _ => None end.

Definition only_country (l : option authenticationStrength)
  : option CountryauthenticationStrength :=
  match l with Some (IsCountry cnl) => Some cnl | _ => None end.

Definition next_ip (s : script) :=
  let '((l, status, err), rest) := next_location s in
  ((only_ip l, status, err), rest).

Definition next_country (s : script) :=
  let '((l, status, err), rest) := next_location s in
  ((only_country l, status, err), rest).

Definition client : Client script := {|
  serve_CreateIP := λ _ _, next_ip;
  serve_CreateCountry := λ _ _, next_country;
  serve_Get := λ _ _, next_location;
  serve_GetIP := λ _ _, next_ip;
  serve_GetCountry := λ _ _, next_country;
  serve_UpdateIP := λ _ _, next_status;
  serve_UpdateCountry := λ _ _, next_status;
  serve_Delete := λ _ _, next_status;
|}.

Definition strings (l : option (list string)) : value :=
  VList (VStr <$> default [] l).

Definition flattenIP (l : option IPauthenticationStrength) : list value :=
  match l with
  | None => []
  | Some ipnl =>
      [VMap (<["ip_ranges" := strings (IPRanges ipnl)]>
             (<["trusted" := VBool (default false (IsTrusted ipnl))]> ∅))]
  end.

Definition flattenCountry (l : option CountryauthenticationStrength)
  : list value :=
  match l with
  | None => []
  | Some cnl =>
      [VMap (<["countries_and_regions" := strings (CountriesAndRegions cnl)]>
             (<["include_unknown_countries_and_regions" :=
                  VBool (default false (IncludeUnknownCountriesAndRegions cnl))]> ∅))]
  end.

Definition unstrings (v : value) : option (list string) :=
  match v with
  | VList l => Some (omap (λ x, match x with VStr s => Some s | _ => None end) l)
  | _ => None
  end.

Definition unbool (v : value) : option bool :=
  match v with VBool b => Some b | _ => None end.

Definition expandIP (l : list value) : option IPauthenticationStrength :=
  match l with
  | VMap m :: _ =>
      Some {| IPBase := None;
              IPRanges := unstrings (index m "ip_ranges");
              IsTrusted := unbool (index m "trusted") |}
  | _ => None
  end.

Definition expandCountry (l : list value)
  : option CountryauthenticationStrength :=
  match l with
  | VMap m :: _ =>
      Some {| CountryBase := None;
              CountriesAndRegions := unstrings (index m "countries_and_regions");
              IncludeUnknownCountriesAndRegions :=
                unbool (index m "include_unknown_countries_and_regions") |}
  | _ => None
  end.

Definition base : BaseauthenticationStrength :=
  {| ID := None; DisplayName := Some "Head office" |}.

(** The resource functions over the scripted client. *)
Definition Read := authenticationStrengthResourceRead client flattenIP flattenCountry.
Definition Create :=
  authenticationStrengthResourceCreate client flattenIP flattenCountry
    expandIP expandCountry base.
Definition Update :=
  authenticationStrengthResourceUpdate client flattenIP flattenCountry
    expandIP expandCountry.
Definition Delete (occurrences : nat) :=
  authenticationStrengthResourceDelete client occurrences.

(** A state with no request sent yet. *)
Definition fresh (rd : ResourceData) (replies : script) : state script :=
  {| d := rd; remote := replies; DisableRetries := false; requests := [] |}.

(** Sample data: an IP location and a country location, and the blocks
    that configure them. *)
Definition office_id : string := "5a3b9fa6-7d0e-42c5-b0f3-0d3b6c1f2a11".

Definition office (name : string) (trusted : bool) : IPauthenticationStrength :=
  {| IPBase := Some {| ID := Some office_id; DisplayName := Some name |};
     IPRanges := Some ["10.0.0.0/8"];
     IsTrusted := Some trusted |}.

Definition nordics : CountryauthenticationStrength :=
  {| CountryBase := Some {| ID := Some office_id; DisplayName := Some "Nordics" |};
     CountriesAndRegions := Some ["NO"; "SE"];
     IncludeUnknownCountriesAndRegions := Some false |}.

Definition ip_block (trusted : bool) : value :=
  VList (flattenIP (Some (office "Head office" trusted))).

Definition country_block : value := VList (flattenCountry (Some nordics)).

Definition configured (name : string) (key : string) (block : value)
  : ResourceData :=
  {| Id := office_id;
     attrs := <[key := block]>
              (<["display_name" := VStr name]>
               (<["description" := VStr "sample"]> ∅));
     prior := <[key := block]>
              (<["display_name" := VStr "Head office"]>
               (<["description" := VStr "sample"]> ∅)) |}.

(** Sample runs. *)
Definition ten_probes : Context := {| probes_before_deadline := 10 |}.

Definition found (l : authenticationStrength) : reply :=
  ReplyLocation (Some l) 200 None.

Definition not_found : reply := ReplyLocation None 404 (Some "not found").

Definition reset_by_peer : reply :=
  ReplyLocation None 500 (Some "connection reset by peer").

Definition accepted : reply := ReplyStatus 204 None.

(** A rename of the office: the service accepts the update and keeps
    answering with the old display name. *)
Definition renamed : state script :=
  fresh (configured "New name" "ip" (ip_block true))
    (accepted :: replicate 6 (found (IsIP (office "Head office" true)))).

Definition renamed_probe : state script :=
  fresh (configured "New name" "ip" (ip_block true))
    [found (IsIP (office "Head office" true))].

(** The configured office is trusted, the observed one not yet. *)
Definition untrusted_yet : state script :=
  fresh (configured "Head office" "ip" (ip_block true))
    [found (IsIP (office "Head office" false))].

(** A create whose read-back still shows the location as not trusted. *)
Definition creating : state script :=
  fresh (configured "Head office" "ip" (ip_block true))
    [ReplyLocation (Some (IsIP (office "Head office" false))) 201 None;
     found (IsIP (office "Head office" false))].

(** Reads of a location that is visible twice and then gone. *)
Definition vanishing : state script :=
  fresh (configured "Head office" "ip" (ip_block true))
    [found (IsIP (office "Head office" false));
     found (IsIP (office "Head office" false));
     not_found].

Definition unknown_kind : state script :=
  fresh (configured "Head office" "ip" (ip_block true))
    [found (IsOther "msgraph.CompliantNetworkauthenticationStrength")].

Definition outage : state script :=
  fresh (configured "Head office" "ip" (ip_block true)) [reset_by_peer].

Definition already_gone : state script :=
  fresh (configured "Head office" "ip" (ip_block true)) [not_found].

Definition country_read : state script :=
  fresh (configured "Nordics" "country" country_block)
    [found (IsCountry nordics)].

Definition trusted_delete : state script :=
  fresh (configured "Head office" "ip" (ip_block true))
    [found (IsIP (office "Head office" true)); accepted; accepted;
     found (IsIP (office "Head office" false)); not_found].

(** The office is observed as not trusted once, then as trusted. *)
Definition converging : state script :=
  fresh (configured "Head office" "ip" (ip_block true))
    [found (IsIP (office "Head office" false));
     found (IsIP (office "Head office" true))].

(** More sample data and runs. *)
Definition no_block : ResourceData :=
  {| Id := office_id;
     attrs := <["display_name" := VStr "Head office"]>
              (<["description" := VStr "sample"]> ∅);
     prior := <["display_name" := VStr "Head office"]>
              (<["description" := VStr "sample"]> ∅) |}.

Definition both_blocks : ResourceData :=
  {| Id := office_id;
     attrs := <["country" := country_block]>
              (attrs (configured "Head office" "ip" (ip_block false)));
     prior := prior (configured "Head office" "ip" (ip_block false)) |}.

(** A client that answers like [client] but drops the error of a [Get]. *)
Definition forgiving : Client script := {|
  serve_CreateIP := λ _ _, next_ip;
  serve_CreateCountry := λ _ _, next_country;
  serve_Get := λ _ _ s,
    let '((l, status, _), rest) := next_location s in ((l, status, None), rest);
  serve_GetIP := λ _ _, next_ip;
  serve_GetCountry := λ _ _, next_country;
  serve_UpdateIP := λ _ _, next_status;
  serve_UpdateCountry := λ _ _, next_status;
  serve_Delete := λ _ _, next_status;
|}.

Definition rejected : reply := ReplyStatus 400 (Some "bad request").

(** An IP location that lost its embedded base. *)
Definition headless : state script :=
  fresh (configured "Head office" "ip" (ip_block true))
    [found (IsIP {| IPBase := None; IPRanges := None; IsTrusted := None |})].

(** An answer that carries both a location and an error. *)
Definition half_failed : state script :=
  fresh (configured "Head office" "ip" (ip_block true))
    [ReplyLocation (Some (IsIP (office "Head office" true))) 500
       (Some "connection reset by peer")].

Definition unconfigured (replies : script) : state script :=
  fresh no_block replies.

Definition create_rejected : state script :=
  fresh (configured "Head office" "ip" (ip_block true))
    [ReplyLocation None 400 (Some "bad request")].

Definition create_then_gone : state script :=
  fresh (configured "Head office" "ip" (ip_block true))
    [ReplyLocation (Some (IsIP (office "Head office" true))) 201 None;
     not_found].

Definition create_both : state script :=
  fresh both_blocks
    [ReplyLocation (Some (IsIP (office "Head office" false))) 201 None;
     found (IsIP (office "Head office" false))].

(** A fetch that succeeds with no location at all. *)
Definition nothing_fetched : state script :=
  fresh (configured "Head office" "ip" (ip_block true))
    [ReplyLocation None 200 None].

(** The observed office has other ranges and no usable [trusted]. *)
Definition moved : state script :=
  fresh (configured "Head office" "ip" (ip_block true))
    [found (IsIP {| IPBase := IPBase (office "Head office" true);
                    IPRanges := Some ["192.168.0.0/16"];
                    IsTrusted := Some true |})].

Definition update_rejected : state script :=
  fresh (configured "New name" "ip" (ip_block true)) [rejected].

Definition delete_unconfigured : state script :=
  unconfigured [ReplyStatus 404 (Some "not found")].

Definition untrust_rejected : state script :=
  fresh (configured "Head office" "ip" (ip_block true))
    [found (IsIP (office "Head office" true));
     ReplyStatus 403 (Some "forbidden")].

Definition delete_both : state script :=
  fresh both_blocks [found (IsIP (office "Head office" false)); not_found].

(** Deletes of locations that are gone, by the check that notices. *)
Definition country_gone : state script :=
  fresh (configured "Nordics" "country" country_block) [not_found].

Definition trusted_both_gone : state script :=
  fresh both_blocks
    [found (IsIP (office "Head office" true)); accepted; not_found].

(** An office whose [IsTrusted] the service leaves unset. *)
Definition unmarked : IPauthenticationStrength :=
  {| IPBase := Some {| ID := Some office_id;
                       DisplayName := Some "Head office" |};
     IPRanges := Some ["10.0.0.0/8"];
     IsTrusted := None |}.

Definition unmarked_delete : state script :=
  fresh (configured "Head office" "ip" (ip_block true))
    [found (IsIP unmarked); accepted; not_found].

(** A create of a country location. *)
Definition creating_country : state script :=
  fresh (configured "Nordics" "country" country_block)
    [ReplyLocation (Some (IsCountry nordics)) 201 None;
     found (IsCountry nordics)].

End scripted.

(** ** Samples for the policies client *)

(** A base client whose encoder and transport always succeed. *)
Definition accepting : msgraph.BaseClient unit := {|
  msgraph.json_Marshal := λ _, inl "{}";
  msgraph.Patch := λ _ r, ((StatusNoContent, None), r);
|}.

Definition unsaved_policy : msgraph.AuthenticationStrengthPolicy := {|
  msgraph.ID := None;
  msgraph.DisplayName := Some "Phishing resistant";
  msgraph.Description := None;
  msgraph.PolicyType := None;
  msgraph.AllowedCombinations := Some ["fido2"];
|}.

(** ** Samples for the other methods of the policies client *)

Definition saved_policy : msgraph.AuthenticationStrengthPolicy := {|
  msgraph.ID := Some "00000000-0000-0000-0000-000000000004";
  msgraph.DisplayName := Some "Phishing resistant";
  msgraph.Description := None;
  msgraph.PolicyType := None;
  msgraph.AllowedCombinations := Some ["fido2"];
|}.

(** A transport that answers every request with status 200 and a body that
    cannot be decoded. *)
Definition garbled : policies.Transport unit unit := {|
  policies.BaseClient_Get := λ _ r,
    ((Some {| policies.ReadAll := inl "<html>" |}, 200, None), r);
  policies.BaseClient_Post := λ _ r,
    ((Some {| policies.ReadAll := inl "<html>" |}, 200, None), r);
  policies.BaseClient_Delete := λ _ r, ((None, 404, Some "not found"), r);
  policies.json_Marshal := λ _, inl "{}";
  policies.json_Unmarshal := λ _, inr "invalid character '<'";
  policies.json_Unmarshal_value := λ _, inr "invalid character '<'";
|}.

Definition idle : policies.wire unit unit :=
  {| policies.service := tt; policies.sent := [] |}.

(** ** Vocabulary of the statements *)

Import conditionalaccess.

(** The request a deletion check logs. *)
Definition check_call (id : string) : call :=
  {| issued := GetReq id; retries_disabled := true |}.

(** The state after one request: the handler's next service state and
    the request at the end of the log. *)
Definition sent {R} (rq : request) (r' : R) (s : state R) : state R :=
  {| d := d s; remote := r'; DisableRetries := DisableRetries s;
     requests := requests s
                 ++ [{| issued := rq; retries_disabled := DisableRetries s |}] |}.

(** What a read stores for a location of one of the two known types. *)
Definition populate (id : string) (name : option string) (key : string)
    (block : list value) (rd : ResourceData) : ResourceData :=
  {| Id := id;
     attrs := <[key := VList block]>
              (<["display_name" := of_string_ptr name]> (attrs rd));
     prior := prior rd |}.

(** The properties the delete sends to a trusted location first. *)
Definition untrust (id : string) : IPauthenticationStrength :=
  {| IPBase := Some {| ID := Some id; DisplayName := None |};
     IPRanges := None;
     IsTrusted := Some false |}.

Definition is_create (rq : request) : bool :=
  match rq with
  | CreateIPReq _ | CreateCountryReq _ => true
  | _ => false
  end.

(** A log in which probes lie between a first request and a last one. *)
Definition polled_between (trace : list call) : Prop :=
  ∃ c probes r, probes ≠ [] ∧ trace = c :: probes ++ [r].

(** The properties a create or an update sends: the expanded block with
    the base put in. *)
Definition with_base (b : BaseauthenticationStrength)
    (properties : IPauthenticationStrength) : IPauthenticationStrength :=
  {| IPBase := Some b; IPRanges := IPRanges properties;
     IsTrusted := IsTrusted properties |}.

Definition with_country_base (b : BaseauthenticationStrength)
    (properties : CountryauthenticationStrength)
  : CountryauthenticationStrength :=
  {| CountryBase := Some b;
     CountriesAndRegions := CountriesAndRegions properties;
     IncludeUnknownCountriesAndRegions :=
       IncludeUnknownCountriesAndRegions properties |}.

(** [d.HasChange] on resource data. *)
Definition changed (rd : ResourceData) (key : string) : bool :=
  negb (DeepEqual (index (prior rd) key) (index (attrs rd) key)).

(** The base an update builds: the identifier always, the display name
    only when it changed. *)
Definition update_base (rd : ResourceData) (name : string)
  : BaseauthenticationStrength :=
  {| ID := Some (Id rd);
     DisplayName := if changed rd "display_name" then Some name else None |}.

(** A request logged under the flag of a state. *)
Definition logged {R} (rq : request) (s : state R) : call :=
  {| issued := rq; retries_disabled := DisableRetries s |}.

(** The requests of the policies client, by method. *)
Definition list_request {Query} (query : Query)
  : policies.GetHttpRequestInput Query :=
  {| policies.Get_ConsistencyFailureFunc := None;
     policies.Get_OData := query;
     policies.Get_ValidStatusCodes := [200];
     policies.Get_Uri_Entity := "/policies/authenticationStrengthPolicies" |}.

Definition get_request {Query} (id : string) (query : Query)
  : policies.GetHttpRequestInput Query :=
  {| policies.Get_ConsistencyFailureFunc :=
       Some msgraph.RetryOn404ConsistencyFailureFunc;
     policies.Get_OData := query;
     policies.Get_ValidStatusCodes := [200];
     policies.Get_Uri_Entity :=
       String.app "/policies/authenticationStrengthPolicies/" id |}.

Definition create_request (body : string) : policies.PostHttpRequestInput :=
  {| policies.Post_Body := body;
     policies.Post_ValidStatusCodes := [201];
     policies.Post_Uri_Entity := "/policies/authenticationStrengthPolicies" |}.

Definition delete_request (id : string) : policies.DeleteHttpRequestInput :=
  {| policies.Delete_ConsistencyFailureFunc :=
       Some msgraph.RetryOn404ConsistencyFailureFunc;
     policies.Delete_ValidStatusCodes := [204];
     policies.Delete_Uri_Entity :=
       String.app "/policies/authenticationStrengthPolicies/"
         (String.app id "/$ref") |}.

Definition update_request (id body : string) : msgraph.PatchHttpRequestInput :=
  {| msgraph.Body := body;
     msgraph.ConsistencyFailure := Some msgraph.RetryOn404ConsistencyFailureFunc;
     msgraph.ValidStatusCodes := [204];
     msgraph.Uri_Entity :=
       String.app "/policies/authenticationStrengthPolicies/" id |}.

(** * Properties *)

#[local] Set Default Proof Using "Type".

Section DeepEqual_facts.

Lemma value_size_elem (l : list value) (x : value) :
  x ∈ l → (value_size x < value_size (VList l))%nat.
Proof.
  induction l as [|y l IH]; intros Hx.
  - by apply elem_of_nil in Hx.
  - apply elem_of_cons in Hx as [->|Hx]; simpl in *.
    + lia.
    + specialize (IH Hx). lia.
Qed.

Lemma value_size_lookup (m : gmap string value) (k : string) (x : value) :
  m !! k = Some x → (value_size x < value_size (VMap m))%nat.
Proof.
  simpl. revert k x.
  apply (map_fold_weak_ind
           (λ n (m : gmap string value),
              ∀ k x, m !! k = Some x → (value_size x < S n)%nat)).
  - intros k x Hk. by rewrite lookup_empty in Hk.
  - intros i y m' r Hi IH k x Hk.
    destruct (decide (i = k)) as [->|Hne].
    + rewrite lookup_insert_eq in Hk. injection Hk as ->. lia.
    + rewrite lookup_insert_ne in Hk by done.
      specialize (IH _ _ Hk). lia.
Qed.

Lemma map_fold_andb (P : string → value → bool) (m : gmap string value) :
  map_fold (λ k x acc, P k x && acc) true m = true
  ↔ ∀ k x, m !! k = Some x → P k x = true.
Proof.
  apply (map_fold_weak_ind
           (λ r (m : gmap string value),
              r = true ↔ ∀ k x, m !! k = Some x → P k x = true)).
  - split; [|done]. intros _ k x Hk. by rewrite lookup_empty in Hk.
  - intros i y m' r Hi IH. rewrite andb_true_iff, IH. split.
    + intros [Hy Hm] k x Hk.
      destruct (decide (i = k)) as [->|Hne].
      * rewrite lookup_insert_eq in Hk. by injection Hk as ->.
      * rewrite lookup_insert_ne in Hk by done. eauto.
    + intros H. split.
      * apply H. by rewrite lookup_insert_eq.
      * intros k x Hk. apply H.
        rewrite lookup_insert_ne; [done|]. intros ->. congruence.
Qed.

Lemma DeepEqual_sized (n : nat) :
  ∀ a, (value_size a < n)%nat → ∀ b, DeepEqual a b = true ↔ a = b.
Proof.
  induction n as [|n IH]; [lia|].
  intros a Ha b. destruct a as [|x|x|l1|m1], b as [|y|y|l2|m2];
    simpl; try (split; [discriminate|congruence]); try done.
  - rewrite bool_decide_eq_true. split; congruence.
  - rewrite bool_decide_eq_true. split; congruence.
  - assert (Hl : ∀ x, x ∈ l1 → (value_size x < n)%nat).
    { intros x Hx. apply value_size_elem in Hx. lia. }
    clear Ha. revert l2.
    induction l1 as [|x l1 IHl]; intros [|y l2];
      try (split; [discriminate|congruence]); try done.
    rewrite andb_true_iff, (IH x), IHl.
    + split; [intros [-> [= ->]]; done|intros [= -> ->]; done].
    + intros z Hz. apply Hl. by right.
    + apply Hl. by left.
  - rewrite andb_true_iff, bool_decide_eq_true,
      (map_fold_andb (λ k x, match m2 !! k with
                             | Some y => DeepEqual x y
                             | None => false
                             end)).
    split.
    + intros [Hsz Hall]. f_equal.
      apply map_subseteq_size_eq; [|lia].
      apply map_subseteq_spec. intros k x Hk.
      specialize (Hall k x Hk). destruct (m2 !! k) as [y|]; [|done].
      apply IH in Hall as ->; [done|].
      apply value_size_lookup in Hk. lia.
    + intros [= ->]. split; [done|]. intros k x Hk. rewrite Hk.
      apply IH; [|done]. apply value_size_lookup in Hk. lia.
Qed.

(** [reflect.DeepEqual] decides structural equality of values. *)
Lemma DeepEqual_eq (a b : value) : DeepEqual a b = true ↔ a = b.
Proof. apply (DeepEqual_sized (S (value_size a))). lia. Qed.

Lemma DeepEqual_refl (a : value) : DeepEqual a a = true.
Proof. by apply DeepEqual_eq. Qed.

Lemma DeepEqual_neq (a b : value) : DeepEqual a b = false ↔ a ≠ b.
Proof.
  rewrite <-DeepEqual_eq. destruct (DeepEqual a b); split; congruence.
Qed.

End DeepEqual_facts.

(** ** The policies client *)

Section Policies_client.

Context {R : Type}.
Variable c : msgraph.BaseClient R.

(** C9: for a policy whose ID is nil, [Update] returns the error (with the
    zero status) at once; no request is sent and the remote service is left
    as it was. *)
Theorem Update_nil_ID (policy : msgraph.AuthenticationStrengthPolicy)
    (w : msgraph.wire R) :
  msgraph.ID policy = None →
  msgraph.Update c policy w =
    (Val (0, Some "cannot update AuthenticationStrengthPolicy with nil ID"), w).
Proof. intros Hid. unfold msgraph.Update. by rewrite Hid. Qed.

(** With an ID, the only request is the PATCH of that policy's URI. *)
Lemma Update_with_ID (policy : msgraph.AuthenticationStrengthPolicy)
    (w : msgraph.wire R) (id body : string) :
  msgraph.ID policy = Some id →
  msgraph.json_Marshal c policy = inl body →
  ∃ input,
    msgraph.sent (msgraph.Update c policy w).2 = msgraph.sent w ++ [input]
    ∧ msgraph.Uri_Entity input
      = String.app "/policies/authenticationStrengthPolicies/" id
    ∧ msgraph.Body input = body.
Proof.
  intros Hid Hbody. unfold msgraph.Update. rewrite Hid, Hbody.
  eexists. unfold mbind, M_bind, msgraph.BaseClient_Patch.
  destruct (msgraph.Patch c _ _) as [[status [e|]] r']; simpl; eauto.
Qed.

End Policies_client.

(** The policy [unsaved_policy] has no ID: nothing is sent for it. *)
Lemma Update_nil_ID_witness :
  msgraph.Update accepting unsaved_policy
    {| msgraph.service := tt; msgraph.sent := [] |}
  = (Val (0, Some "cannot update AuthenticationStrengthPolicy with nil ID"),
     {| msgraph.service := tt; msgraph.sent := [] |}).
Proof. apply (Update_nil_ID accepting unsaved_policy). reflexivity. Defined.

(** ** The resource *)

(** Unfold one layer of the monad and of the state accessors. *)
Ltac run :=
  unfold Get, GetIP, GetCountry, CreateIP, CreateCountry,
    UpdateIP, UpdateCountry, Delete,
    d_Id, d_Get, d_GetOk, d_SetId, d_HasChange, tf_Set,
    as_string, as_bool, as_list, as_map, first, deref,
    mbind, M_bind, mret, M_ret, gets, modify, defer, send, panic in *;
  simpl in *.

Section Deletion_check.

Context {R : Type}.
Variable client : Client R.
Variable deletionOccurrences : nat.

Abbreviation St := (state R).

(** One run of the closure, written out. *)
Lemma deletionCheck_run (id : string) (s : St) :
  deletionCheck client id s =
    let '((_, status, err), r') := serve_Get client true id (remote s) in
    (Val match err with
         | None => (Some true, None)
         | Some e =>
             if status =? StatusNotFound then (Some false, None)
             else (None, Some e)
         end,
     {| d := d s; remote := r'; DisableRetries := false;
        requests := requests s ++ [check_call id] |}).
Proof.
  unfold deletionCheck. run.
  destruct (serve_Get client true id (remote s)) as [[[result status] [e|]] r'];
    simpl; [by destruct (status =? StatusNotFound)|done].
Qed.

(** C8: every run of the delete-confirmation check issues its read with
    [DisableRetries] set to true and returns with the flag reset to false,
    whatever the read answers. *)
Theorem deletionCheck_toggles_DisableRetries (id : string) (s : St) :
  let s' := (deletionCheck client id s).2 in
  DisableRetries s' = false
  ∧ requests s' = requests s ++ [{| issued := GetReq id; retries_disabled := true |}]
  ∧ remote s' = (serve_Get client true id (remote s)).2
  ∧ ∃ answer, (deletionCheck client id s).1 = Val answer.
Proof.
  rewrite deletionCheck_run.
  destruct (serve_Get client true id (remote s)) as [[[result status] err] r'].
  simpl. eauto 6.
Qed.

(** One run of the check under the labels of the deletion wait. *)
Lemma deletionRefresh_run (id : string) (s : St) :
  deletionRefresh (deletionCheck client id) s =
    let '((_, status, err), r') := serve_Get client true id (remote s) in
    (Val match err with
         | None => (VStr "stub", "Pending", None)
         | Some e =>
             if status =? StatusNotFound then (VStr "stub", "Absent", None)
             else (VNil, "Error", Some e)
         end,
     {| d := d s; remote := r'; DisableRetries := false;
        requests := requests s ++ [check_call id] |}).
Proof.
  unfold deletionRefresh, mbind, M_bind. rewrite deletionCheck_run.
  destruct (serve_Get client true id (remote s)) as [[[result status] [e|]] r'];
    [by destruct (status =? StatusNotFound)|done].
Qed.

(** One round of the polling primitive. *)
Lemma poll_round (conf : StateChangeConf) (refresh : Probe)
    (rounds seen : nat) (s : St) :
  poll conf refresh (S rounds) seen s =
    match refresh s with
    | (Val (_, _, Some e), s') => (Val (Some e), s')
    | (Val (_, label, None), s') =>
        if bool_decide (label ∈ Target conf) then
          if bool_decide (ContinuousTargetOccurence conf ≤ S seen)%nat
          then (Val None, s')
          else poll conf refresh rounds (S seen) s'
        else poll conf refresh rounds 0%nat s'
    | (Panic msg, s') => (Panic msg, s')
    end.
Proof.
  simpl. unfold mbind, M_bind.
  destruct (refresh s) as [[[[result label] [e|]]|msg] s']; try done.
  by repeat case_bool_decide.
Qed.

Lemma WaitForDeletion_poll (ctx : Context)
    (f : M St (option bool * option error)) :
  WaitForDeletion deletionOccurrences ctx f =
    poll {| Pending := ["Pending"]; Target := ["Absent"];
            Timeout := probes_before_deadline ctx; MinTimeout := 1;
            ContinuousTargetOccurence := deletionOccurrences;
            Refresh := Some (deletionRefresh f) |}
      (deletionRefresh f) (probes_before_deadline ctx) 0%nat.
Proof. reflexivity. Qed.

(** A hard failure of the check ends the wait at the first probe. *)
Lemma WaitForDeletion_abort (ctx : Context) (id : string) (s : St)
    (result : option authenticationStrength) (status : Z) (e : error) :
  (serve_Get client true id (remote s)).1 = (result, status, Some e) →
  status ≠ StatusNotFound →
  probes_before_deadline ctx ≠ 0%nat →
  WaitForDeletion deletionOccurrences ctx (deletionCheck client id) s
  = (Val (Some e), (deletionCheck client id s).2).
Proof.
  intros Hget Hstatus Hctx. rewrite WaitForDeletion_poll.
  destruct (probes_before_deadline ctx) as [|rounds]; [done|].
  rewrite poll_round, deletionRefresh_run, deletionCheck_run.
  destruct (serve_Get client true id (remote s)) as [[[? ?] ?] r'].
  simpl in Hget. injection Hget as -> -> ->.
  apply Z.eqb_neq in Hstatus. by rewrite Hstatus.
Qed.

(** C2: the delete-confirmation check answers from the read alone: still
    visible ([Pending]) when the read succeeds, gone ([Absent]) when the
    read fails with status 404, and any other read error is passed on and
    ends the wait with that error. *)
Theorem deletionCheck_reports (id : string) (s : St)
    (result : option authenticationStrength) (status : Z) (err : option error) :
  (serve_Get client true id (remote s)).1 = (result, status, err) →
  (deletionCheck client id s).1 =
    Val match err with
        | None => (Some true, None)
        | Some e =>
            if status =? StatusNotFound then (Some false, None)
            else (None, Some e)
        end
  ∧ (deletionRefresh (deletionCheck client id) s).1 =
    Val match err with
        | None => (VStr "stub", "Pending", None)
        | Some e =>
            if status =? StatusNotFound then (VStr "stub", "Absent", None)
            else (VNil, "Error", Some e)
        end
  ∧ ∀ e ctx,
      err = Some e → status ≠ StatusNotFound →
      probes_before_deadline ctx ≠ 0%nat →
      (WaitForDeletion deletionOccurrences ctx
         (deletionCheck client id) s).1 = Val (Some e)
      ∧ requests (WaitForDeletion deletionOccurrences ctx
                    (deletionCheck client id) s).2
        = requests s ++ [check_call id].
Proof.
  intros Hget. split_and!.
  - rewrite deletionCheck_run.
    destruct (serve_Get client true id (remote s)) as [[[? ?] ?] r'].
    simpl in Hget. by injection Hget as -> -> ->.
  - rewrite deletionRefresh_run.
    destruct (serve_Get client true id (remote s)) as [[[? ?] ?] r'].
    simpl in Hget. by injection Hget as -> -> ->.
  - intros e ctx -> Hstatus Hctx.
    rewrite (WaitForDeletion_abort ctx id s result status e) by done.
    split; [done|]. rewrite deletionCheck_run.
    by destruct (serve_Get client true id (remote s)) as [[[? ?] ?] r'].
Qed.

(** The deletion wait never panics, leaves the resource data alone and
    sends nothing but its checks, at most one per round. *)
Lemma poll_deletion_requests (conf : StateChangeConf) (id : string)
    (rounds seen : nat) (s : St) :
  ∃ n o s',
    poll conf (deletionRefresh (deletionCheck client id)) rounds seen s
    = (Val o, s')
    ∧ (n ≤ rounds)%nat
    ∧ requests s' = requests s ++ replicate n (check_call id)
    ∧ d s' = d s.
Proof.
  revert seen s. induction rounds as [|rounds IH]; intros seen s.
  - exists 0%nat. do 2 eexists. split; [reflexivity|].
    simpl. by rewrite app_nil_r.
  - rewrite poll_round, deletionRefresh_run.
    destruct (serve_Get client true id (remote s)) as [[[result status] err] r'].
    set (s1 := {| d := d s; remote := r'; DisableRetries := false;
                  requests := requests s ++ [check_call id] |}).
    assert (Hone : ∀ o : option error, ∃ n o' s',
               (Val o, s1) = (Val o', s') ∧ (n ≤ S rounds)%nat
               ∧ requests s' = requests s ++ replicate n (check_call id)
               ∧ d s' = d s).
    { intros o. exists 1%nat, o, s1. split_and!; [done|lia|done|done]. }
    assert (Hmore : ∀ seen', ∃ n o' s',
               poll conf (deletionRefresh (deletionCheck client id))
                 rounds seen' s1 = (Val o', s') ∧ (n ≤ S rounds)%nat
               ∧ requests s' = requests s ++ replicate n (check_call id)
               ∧ d s' = d s).
    { intros seen'. destruct (IH seen' s1) as (n & o & s' & -> & Hn & Hreq & Hd).
      exists (S n), o, s'. split_and!; [done|lia| |done].
      rewrite Hreq. simpl. by rewrite <-app_assoc. }
    destruct err as [e|]; [destruct (status =? StatusNotFound)|];
      repeat case_bool_decide; auto.
Qed.

Lemma WaitForDeletion_requests (ctx : Context) (id : string) (s : St) :
  ∃ n o s',
    WaitForDeletion deletionOccurrences ctx (deletionCheck client id) s
    = (Val o, s')
    ∧ requests s' = requests s ++ replicate n (check_call id)
    ∧ d s' = d s.
Proof.
  rewrite WaitForDeletion_poll.
  destruct (poll_deletion_requests
              {| Pending := ["Pending"]; Target := ["Absent"];
                 Timeout := probes_before_deadline ctx; MinTimeout := 1;
                 ContinuousTargetOccurence := deletionOccurrences;
                 Refresh := Some (deletionRefresh (deletionCheck client id)) |}
              id (probes_before_deadline ctx) 0%nat s)
    as (n & o & s' & Hrun & _ & Hreq & Hd).
  eauto 6.
Qed.

End Deletion_check.

Arguments WaitForDeletion : simpl never.
Arguments authenticationStrengthResourceRead : simpl never.

Section Resource_facts.

Context {R : Type}.
Variable client : Client R.
Variable flattenIPauthenticationStrength :
  option IPauthenticationStrength → list value.
Variable flattenCountryauthenticationStrength :
  option CountryauthenticationStrength → list value.
Variable expandIPauthenticationStrength :
  list value → option IPauthenticationStrength.
Variable expandCountryauthenticationStrength :
  list value → option CountryauthenticationStrength.
Variable base : BaseauthenticationStrength.
Variable deletionOccurrences : nat.

Abbreviation St := (state R).
Abbreviation Read :=
  (authenticationStrengthResourceRead client
     flattenIPauthenticationStrength flattenCountryauthenticationStrength).
Abbreviation Create :=
  (authenticationStrengthResourceCreate client
     flattenIPauthenticationStrength flattenCountryauthenticationStrength
     expandIPauthenticationStrength expandCountryauthenticationStrength base).
Abbreviation DeleteResource :=
  (authenticationStrengthResourceDelete client deletionOccurrences).

(** *** Read *)

(** A read that ends in status 404 with an error clears the identifier. *)
Lemma Read_not_found (s : St) result e r' :
  serve_Get client (DisableRetries s) (Id (d s)) (remote s)
  = ((result, StatusNotFound, Some e), r') →
  Read s =
    (Val [], set_d (λ rd, {| Id := EmptyString; attrs := attrs rd;
                             prior := prior rd |})
               (sent (GetReq (Id (d s))) r' s)).
Proof.
  intros Hget. unfold authenticationStrengthResourceRead. run.
  by rewrite Hget.
Qed.

(** Every other read dispatches on the result alone: the error of the
    transport is not looked at again. *)
Lemma Read_dispatch (s : St) result status err r' :
  serve_Get client (DisableRetries s) (Id (d s)) (remote s)
  = ((result, status, err), r') →
  bool_decide (is_Some err) && (status =? StatusNotFound) = false →
  Read s =
    let s1 := sent (GetReq (Id (d s))) r' s in
    match result with
    | None =>
        (Val (tf_ErrorDiagF "Bad API response" "Result is nil" []), s1)
    | Some (IsIP ipnl) =>
        match IPBase ipnl with
        | None =>
            (Panic "invalid memory address or nil pointer dereference", s1)
        | Some b =>
            match ID b with
            | None =>
                (Val (tf_ErrorDiagF "Bad API response"
                        "ID is nil for returned IP Named Location" []), s1)
            | Some id =>
                (Val [],
                 set_d (populate id (DisplayName b) "ip"
                          (flattenIPauthenticationStrength (Some ipnl))) s1)
            end
        end
    | Some (IsCountry cnl) =>
        match CountryBase cnl with
        | None =>
            (Panic "invalid memory address or nil pointer dereference", s1)
        | Some b =>
            match ID b with
            | None =>
                (Val (tf_ErrorDiagF "Bad API response"
                        "ID is nil for returned Country Named Location" []), s1)
            | Some id =>
                (Val [],
                 set_d (populate id (DisplayName b) "country"
                          (flattenCountryauthenticationStrength (Some cnl))) s1)
            end
        end
    | Some (IsOther _) => (Val [], s1)
    end.
Proof.
  intros Hget Hnot. unfold authenticationStrengthResourceRead. run.
  rewrite Hget, Hnot.
  destruct result as [[ipnl|cnl|ty]|]; try done.
  - destruct (IPBase ipnl) as [[[id|] name]|]; done.
  - destruct (CountryBase cnl) as [[[id|] name]|]; done.
Qed.

(** A read sends exactly one request, the [Get] of the identifier. *)
Lemma Read_requests (s : St) :
  requests (Read s).2
  = requests s ++ [{| issued := GetReq (Id (d s));
                      retries_disabled := DisableRetries s |}].
Proof.
  destruct (serve_Get client (DisableRetries s) (Id (d s)) (remote s))
    as [[[result status] err] r'] eqn:Hget.
  destruct (bool_decide (is_Some err) && (status =? StatusNotFound)) eqn:Hnf.
  - apply andb_true_iff in Hnf as [Herr Hst].
    apply bool_decide_eq_true in Herr as [e ->].
    apply Z.eqb_eq in Hst as ->.
    by rewrite (Read_not_found s result e r').
  - rewrite (Read_dispatch s result status err r') by done.
    destruct result as [[ipnl|cnl|ty]|]; try done.
    + destruct (IPBase ipnl) as [[[id|] name]|]; done.
    + destruct (CountryBase cnl) as [[[id|] name]|]; done.
Qed.

(** A result of neither location type: nothing is stored, nothing is
    reported. *)
Lemma Read_unrecognised (s : St) ty status err r' :
  serve_Get client (DisableRetries s) (Id (d s)) (remote s)
  = ((Some (IsOther ty), status, err), r') →
  bool_decide (is_Some err) && (status =? StatusNotFound) = false →
  Read s = (Val [], sent (GetReq (Id (d s))) r' s).
Proof.
  intros Hget Hnot.
  by rewrite (Read_dispatch s (Some (IsOther ty)) status err r').
Qed.

(** A failed read with a status other than 404 and no result: the
    diagnostic is the one of a nil result, whatever the error was. *)
Lemma Read_transport_error (s : St) status e r' :
  serve_Get client (DisableRetries s) (Id (d s)) (remote s)
  = ((None, status, Some e), r') →
  status ≠ StatusNotFound →
  Read s = (Val (tf_ErrorDiagF "Bad API response" "Result is nil" []),
            sent (GetReq (Id (d s))) r' s).
Proof.
  intros Hget Hstatus. rewrite (Read_dispatch s None status (Some e) r'); [done..|].
  apply Z.eqb_neq in Hstatus. by rewrite Hstatus, andb_false_r.
Qed.

(** C7: a read whose result is of exactly one of the two known location
    types stores the identifier, [display_name] and the block of that
    type, and leaves every other attribute as it was; in particular a
    country result leaves [ip] alone and an IP result leaves [country]
    alone. *)
Theorem read_populates_matching_subtype_only (s : St)
    (loc : authenticationStrength) (status : Z) (err : option error) :
  (serve_Get client (DisableRetries s) (Id (d s)) (remote s)).1
  = (Some loc, status, err) →
  bool_decide (is_Some err) && (status =? StatusNotFound) = false →
  (∀ cnl b id,
     loc = IsCountry cnl → CountryBase cnl = Some b → ID b = Some id →
     (Read s).1 = Val []
     ∧ d (Read s).2
       = populate id (DisplayName b) "country"
           (flattenCountryauthenticationStrength (Some cnl)) (d s)
     ∧ attrs (d (Read s).2) !! "ip" = attrs (d s) !! "ip"
     ∧ ∀ k, k ≠ "display_name" → k ≠ "country" →
            attrs (d (Read s).2) !! k = attrs (d s) !! k)
  ∧ (∀ ipnl b id,
     loc = IsIP ipnl → IPBase ipnl = Some b → ID b = Some id →
     (Read s).1 = Val []
     ∧ d (Read s).2
       = populate id (DisplayName b) "ip"
           (flattenIPauthenticationStrength (Some ipnl)) (d s)
     ∧ attrs (d (Read s).2) !! "country" = attrs (d s) !! "country"
     ∧ ∀ k, k ≠ "display_name" → k ≠ "ip" →
            attrs (d (Read s).2) !! k = attrs (d s) !! k).
Proof.
  intros Hget Hnot.
  destruct (serve_Get client (DisableRetries s) (Id (d s)) (remote s))
    as [[[result status'] err'] r'] eqn:Hrun.
  simpl in Hget. injection Hget as -> -> ->.
  rewrite (Read_dispatch s (Some loc) status err r') by done.
  split; intros l b id -> Hb Hid; simpl; rewrite Hb, Hid; simpl;
    (split_and!; [done|done| |]);
    try (intros k Hk1 Hk2); by rewrite !lookup_insert_ne.
Qed.

(** *** Delete *)

(** C6 as the code has it: when an existence check that precedes the
    delete request answers not found (an error with status 404), the
    delete returns without a diagnostic, leaves the resource data alone
    and sends no delete request: the log ends with that check. The checks
    are the [GetIP] of a configured [ip] block and the [GetCountry] of a
    configured [country] block; the second one runs first when there is no
    [ip] block, and otherwise after the [GetIP] has found the location
    and, for a location marked as trusted, the update that withdraws the
    trust has succeeded. *)
Theorem delete_already_absent (ctx : Context) (s : St) (e : error) :
  let id := Id (d s) in
  let now rq := {| issued := rq; retries_disabled := DisableRetries s |} in
  let absent_after lookups :=
    (DeleteResource ctx s).1 = Val []
    ∧ d (DeleteResource ctx s).2 = d s
    ∧ requests (DeleteResource ctx s).2 = requests s ++ lookups in
  (∀ ipResp,
     is_zero (index (attrs (d s)) "ip") = false →
     (serve_GetIP client (DisableRetries s) id (remote s)).1
     = (ipResp, StatusNotFound, Some e) →
     absent_after [now (GetIPReq id)])
  ∧ (∀ countryResp,
       is_zero (index (attrs (d s)) "ip") = true →
       is_zero (index (attrs (d s)) "country") = false →
       (serve_GetCountry client (DisableRetries s) id (remote s)).1
       = (countryResp, StatusNotFound, Some e) →
       absent_after [now (GetCountryReq id)])
  ∧ (∀ ipResp status r1 countryResp,
       is_zero (index (attrs (d s)) "ip") = false →
       is_zero (index (attrs (d s)) "country") = false →
       serve_GetIP client (DisableRetries s) id (remote s)
       = ((ipResp, status, None), r1) →
       ipResp = None
       ∨ (∃ l, ipResp = Some l
               ∧ (IsTrusted l = None ∨ IsTrusted l = Some false)) →
       (serve_GetCountry client (DisableRetries s) id r1).1
       = (countryResp, StatusNotFound, Some e) →
       absent_after [now (GetIPReq id); now (GetCountryReq id)])
  ∧ (∀ l status r1 ustatus r2 countryResp,
       is_zero (index (attrs (d s)) "ip") = false →
       is_zero (index (attrs (d s)) "country") = false →
       serve_GetIP client (DisableRetries s) id (remote s)
       = ((Some l, status, None), r1) →
       IsTrusted l = Some true →
       serve_UpdateIP client (DisableRetries s) (untrust id) r1
       = ((ustatus, None), r2) →
       (serve_GetCountry client (DisableRetries s) id r2).1
       = (countryResp, StatusNotFound, Some e) →
       absent_after [now (GetIPReq id); now (UpdateIPReq (untrust id));
                     now (GetCountryReq id)]).
Proof.
  intros id now absent_after. subst id now absent_after.
  unfold authenticationStrengthResourceDelete. run.
  split_and!.
  - intros ipResp Hip Hget. rewrite Hip. simpl.
    destruct (serve_GetIP client (DisableRetries s) (Id (d s)) (remote s))
      as [[[? ?] ?] r'].
    simpl in Hget. by injection Hget as -> -> ->.
  - intros countryResp Hip Hcountry Hget. rewrite Hip. simpl.
    rewrite Hcountry. simpl.
    destruct (serve_GetCountry client (DisableRetries s) (Id (d s)) (remote s))
      as [[[? ?] ?] r'].
    simpl in Hget. by injection Hget as -> -> ->.
  - intros ipResp status r1 countryResp Hip Hcountry Hget Hnot Hgetc.
    rewrite Hip. simpl. rewrite Hget. simpl.
    assert (is_trusted ipResp = false) as ->.
    { destruct Hnot as [->|(l & -> & [Hl|Hl])]; simpl; by rewrite ?Hl. }
    simpl. rewrite Hcountry. simpl.
    destruct (serve_GetCountry client (DisableRetries s) (Id (d s)) r1)
      as [[[? ?] ?] r2].
    simpl in Hgetc. injection Hgetc as -> -> ->. simpl.
    by rewrite <-app_assoc.
  - intros l status r1 ustatus r2 countryResp Hip Hcountry Hget Hl
           Hupdate Hgetc.
    rewrite Hip. simpl. rewrite Hget. simpl. rewrite Hl. simpl.
    unfold untrust in Hupdate. rewrite Hupdate. simpl.
    rewrite Hcountry. simpl.
    destruct (serve_GetCountry client (DisableRetries s) (Id (d s)) r2)
      as [[[? ?] ?] r3].
    simpl in Hgetc. injection Hgetc as -> -> ->. simpl.
    by rewrite <-!app_assoc.
Qed.

(** Membership in the tail of a delete's log: no entry is an [UpdateIP]. *)
Ltac no_update H :=
  repeat (apply elem_of_cons in H as [->|H]; [discriminate|]);
  first [ by apply elem_of_nil in H
        | by apply elem_of_replicate in H as [-> _] ].

(** C10: when the [ip] block is configured and the lookup succeeds, what
    the delete sends next is decided by the [IsTrusted] field of the
    location the lookup returned. When there is a location whose
    [IsTrusted] is set to true, the update that sets [IsTrusted] to false
    is sent right after the lookup, before any delete request. When the
    lookup returned no location, or a location whose [IsTrusted] is unset
    or set to false, no update is sent at all. Without a [country] block,
    a delete that ends without a diagnostic has sent the delete request
    next, followed only by its checks. *)
Theorem delete_untrusts_before_deleting (ctx : Context) (s : St)
    (resp : option IPauthenticationStrength) (status : Z) :
  is_zero (index (attrs (d s)) "ip") = false →
  (serve_GetIP client (DisableRetries s) (Id (d s)) (remote s)).1
  = (resp, status, None) →
  let id := Id (d s) in
  let now rq := {| issued := rq; retries_disabled := DisableRetries s |} in
  ∃ updates rest,
    requests (DeleteResource ctx s).2
    = requests s ++ now (GetIPReq id) :: updates ++ rest
    ∧ ((∃ l, resp = Some l ∧ IsTrusted l = Some true) →
       updates = [now (UpdateIPReq (untrust id))])
    ∧ (resp = None
       ∨ (∃ l, resp = Some l
               ∧ (IsTrusted l = None ∨ IsTrusted l = Some false)) →
       updates = [])
    ∧ (∀ c p, c ∈ rest → issued c ≠ UpdateIPReq p)
    ∧ (is_zero (index (attrs (d s)) "country") = true →
       (DeleteResource ctx s).1 = Val [] →
       ∃ n, rest = now (DeleteReq id) :: replicate n (check_call id)).
Proof.
  intros Hip Hget id now.
  unfold authenticationStrengthResourceDelete. run. rewrite Hip. simpl.
  destruct (serve_GetIP client (DisableRetries s) (Id (d s)) (remote s))
    as [[[? ?] ?] r1].
  simpl in Hget. injection Hget as -> -> ->. simpl.
  destruct resp as [[b ranges [[|]|]]|]; simpl;
    [exists [now (UpdateIPReq (untrust id))]
    |exists (@nil call)|exists (@nil call)|exists (@nil call)];
    repeat match goal with
      | |- context [serve_UpdateIP client ?f ?p ?r] =>
          destruct (serve_UpdateIP client f p r) as [[? [?|]] ?]; simpl
      | |- context [is_zero ?x] => destruct (is_zero x) eqn:?; simpl
      | |- context [serve_GetCountry client ?f ?i ?r] =>
          destruct (serve_GetCountry client f i r) as [[[? ?] [?|]] ?]; simpl
      | |- context [?x =? StatusNotFound] =>
          destruct (x =? StatusNotFound); simpl
      | |- context [serve_Delete client ?f ?i ?r] =>
          destruct (serve_Delete client f i r) as [[? [?|]] ?]; simpl
      | |- context [WaitForDeletion deletionOccurrences ctx
                      (deletionCheck client ?i) ?s0] =>
          let Hreq := fresh "Hreq" in
          destruct (WaitForDeletion_requests client deletionOccurrences
                      ctx i s0) as (n & [?|] & s' & -> & Hreq & _);
          simpl; rewrite Hreq; simpl
      end;
    (eexists; split_and!;
     [ rewrite <-?app_assoc; simpl; reflexivity
     | first [ intros _; reflexivity
             | intros (l & [= <-] & Hl); discriminate Hl
             | intros (l & Hl & _); discriminate Hl ]
     | first [ intros _; reflexivity
             | intros [Hl|(l & [= <-] & [Hl|Hl])]; discriminate Hl ]
     | intros c p Hc; no_update Hc
     | intros; unfold tf_ErrorDiagF, tf_ErrorDiagPathF in *;
       try congruence; eauto ]).
Qed.

(** *** Create *)

(** The two ways a create ends without reading. *)
Ltac nothing_sent :=
  left; split; [reflexivity|unfold tf_ErrorDiagF, tf_ErrorDiagPathF; done].
Ltac only_create :=
  right; left; eexists; split_and!; cycle 1;
  [ reflexivity
  | unfold tf_ErrorDiagF, tf_ErrorDiagPathF; done
  | reflexivity ].

(** What a create can send: nothing, or its create request alone, or the
    create request and then one [Get], the one of the read it ends with
    once the create request has succeeded with a non-empty identifier. *)
Lemma Create_requests (s : St) :
  (requests (Create s).2 = requests s ∧ (Create s).1 ≠ Val [])
  ∨ (∃ c, is_create (issued c) = true
          ∧ requests (Create s).2 = requests s ++ [c]
          ∧ (Create s).1 ≠ Val [])
  ∨ (∃ c s1,
       is_create (issued c) = true
       ∧ requests s1 = requests s ++ [c]
       ∧ Id (d s1) ≠ EmptyString
       ∧ Create s = Read s1
       ∧ requests (Create s).2
         = requests s ++ [c; {| issued := GetReq (Id (d s1));
                                retries_disabled := DisableRetries s |}]).
Proof.
  unfold authenticationStrengthResourceCreate. run.
  destruct (index (attrs (d s)) "display_name"); simpl; try nothing_sent.
  destruct (index (attrs (d s)) "description"); simpl; try nothing_sent.
  destruct (is_zero (index (attrs (d s)) "ip")); simpl;
    [destruct (is_zero (index (attrs (d s)) "country")); simpl; [nothing_sent|]|].
  - destruct (index (attrs (d s)) "country") as [| | |l|]; simpl; try nothing_sent.
    destruct (expandCountryauthenticationStrength l) as [properties|];
      simpl; try nothing_sent.
    destruct (serve_CreateCountry client _ _ _)
      as [[[[countryLocation|] status] [e|]] r'];
      simpl; try only_create.
    destruct (CountryBase countryLocation) as [[[[|c id']|] name]|];
      simpl; try only_create.
    right; right. do 2 eexists. split_and!; cycle 3.
    + reflexivity.
    + rewrite Read_requests. simpl. by rewrite <-app_assoc.
    + done.
    + done.
    + done.
  - destruct (index (attrs (d s)) "ip") as [| | |l|]; simpl; try nothing_sent.
    destruct (expandIPauthenticationStrength l) as [properties|];
      simpl; try nothing_sent.
    destruct (serve_CreateIP client _ _ _)
      as [[[[ipLocation|] status] [e|]] r'];
      simpl; try only_create.
    destruct (IPBase ipLocation) as [[[[|c id']|] name]|];
      simpl; try only_create.
    right; right. do 2 eexists. split_and!; cycle 3.
    + reflexivity.
    + rewrite Read_requests. simpl. by rewrite <-app_assoc.
    + done.
    + done.
    + done.
Qed.

(** *** The refresh closures of the update *)

(** C1 as the code has it: once the location is fetched and flattened to
    a block, the refresh closure compares the fields of the configured
    block with it, [ip_ranges] and [trusted] for an IP location,
    [countries_and_regions] and [include_unknown_countries_and_regions]
    for a country location, the first by deep equality; the label is
    [Updated] exactly when both agree and [Pending] exactly when one
    differs. The display name, which the update also sends, is not among
    the compared fields. *)
Theorem updateRefreshFunc_compares_block_fields :
  (∀ (v : value) (s : St) result status location rest ip rest'
     (observed configured : bool),
     (serve_GetIP client (DisableRetries s) (Id (d s)) (remote s)).1
     = (result, status, None) →
     flattenIPauthenticationStrength result = VMap location :: rest →
     v = VList (VMap ip :: rest') →
     index location "trusted" = VBool observed →
     index ip "trusted" = VBool configured →
     ∃ label,
       (updateRefreshFunc_ip client flattenIPauthenticationStrength v s).1
       = Val (VStr "stub", label, None)
       ∧ (label = "Updated"
          ↔ index location "ip_ranges" = index ip "ip_ranges"
            ∧ observed = configured)
       ∧ (label = "Pending"
          ↔ index location "ip_ranges" ≠ index ip "ip_ranges"
            ∨ observed ≠ configured))
  ∧ (∀ (v : value) (s : St) result status location rest ip rest'
       (observed configured : bool),
     (serve_GetCountry client (DisableRetries s) (Id (d s)) (remote s)).1
     = (result, status, None) →
     flattenCountryauthenticationStrength result = VMap location :: rest →
     v = VList (VMap ip :: rest') →
     index location "include_unknown_countries_and_regions" = VBool observed →
     index ip "include_unknown_countries_and_regions" = VBool configured →
     ∃ label,
       (updateRefreshFunc_country client
          flattenCountryauthenticationStrength v s).1
       = Val (VStr "stub", label, None)
       ∧ (label = "Updated"
          ↔ index location "countries_and_regions"
            = index ip "countries_and_regions"
            ∧ observed = configured)
       ∧ (label = "Pending"
          ↔ index location "countries_and_regions"
            ≠ index ip "countries_and_regions"
            ∨ observed ≠ configured)).
Proof.
  clear expandIPauthenticationStrength expandCountryauthenticationStrength.
  split; intros v s result status location rest ip rest' observed configured
           Hget Hflat -> Hobs Hconf;
    [unfold updateRefreshFunc_ip|unfold updateRefreshFunc_country]; run.
  - destruct (serve_GetIP client _ _ _) as [[[? ?] ?] r'].
    simpl in Hget. injection Hget as -> -> ->. simpl.
    rewrite Hflat. simpl.
    destruct (DeepEqual (index location "ip_ranges") (index ip "ip_ranges"))
      eqn:Heq; simpl.
    + apply DeepEqual_eq in Heq. rewrite Hobs, Hconf. simpl.
      destruct observed, configured; simpl; eexists;
        (split; [reflexivity|]); intuition congruence.
    + apply DeepEqual_neq in Heq. eexists.
      split; [reflexivity|]. intuition congruence.
  - destruct (serve_GetCountry client _ _ _) as [[[? ?] ?] r'].
    simpl in Hget. injection Hget as -> -> ->. simpl.
    rewrite Hflat. simpl.
    destruct (DeepEqual (index location "countries_and_regions")
                (index ip "countries_and_regions")) eqn:Heq; simpl.
    + apply DeepEqual_eq in Heq. rewrite Hobs, Hconf. simpl.
      destruct observed, configured; simpl; eexists;
        (split; [reflexivity|]); intuition congruence.
    + apply DeepEqual_neq in Heq. eexists.
      split; [reflexivity|]. intuition congruence.
Qed.

(** A failed fetch is reported under the label [Error] with its error. *)
Lemma updateRefreshFunc_ip_error (v : value) (s : St) result status e :
  (serve_GetIP client (DisableRetries s) (Id (d s)) (remote s)).1
  = (result, status, Some e) →
  (updateRefreshFunc_ip client flattenIPauthenticationStrength v s).1
  = Val (VNil, "Error", Some e).
Proof.
  intros Hget. unfold updateRefreshFunc_ip. run.
  destruct (serve_GetIP client _ _ _) as [[[? ?] ?] r'].
  simpl in Hget. by injection Hget as -> -> ->.
Qed.

(** When the flattened location is empty nothing is compared. *)
Lemma updateRefreshFunc_ip_empty (v : value) (s : St) result status :
  (serve_GetIP client (DisableRetries s) (Id (d s)) (remote s)).1
  = (result, status, None) →
  flattenIPauthenticationStrength result = [] →
  (updateRefreshFunc_ip client flattenIPauthenticationStrength v s).1
  = Val (VStr "stub", "Updated", None).
Proof.
  intros Hget Hflat. unfold updateRefreshFunc_ip. run.
  destruct (serve_GetIP client _ _ _) as [[[? ?] ?] r'].
  simpl in Hget. injection Hget as -> -> ->. simpl. by rewrite Hflat.
Qed.

End Resource_facts.

(** ** Runs against the scripted client *)

Section Runs.

Import scripted.

(** C1, counterexample: the update of [renamed] sends the display name
    ["New name"]; every location the service returns afterwards still has
    another display name; the refresh closure nevertheless reports
    [Updated], and the update as a whole ends without a diagnostic. *)
Lemma update_refresh_ignores_display_name :
  let run := scripted.Update ten_probes renamed in
  (∃ p b,
     head (requests run.2)
     = Some {| issued := UpdateIPReq p; retries_disabled := false |}
     ∧ IPBase p = Some b ∧ DisplayName b = Some "New name")
  ∧ (∀ b, IPBase (office "Head office" true) = Some b →
          DisplayName b ≠ Some "New name")
  ∧ (updateRefreshFunc_ip client flattenIP (ip_block true) renamed_probe).1
    = Val (VStr "stub", "Updated", None)
  ∧ run.1 = Val [].
Proof.
  split_and!.
  - do 2 eexists. split_and!; vm_compute; reflexivity.
  - intros b [= <-]. discriminate.
  - vm_compute. reflexivity.
  - vm_compute. reflexivity.
Qed.

(** The configured office is trusted and the observed one is not: the
    closure reports [Pending]. *)
Lemma updateRefreshFunc_compares_block_fields_witness :
  ∃ label,
    (updateRefreshFunc_ip client flattenIP (ip_block true) untrusted_yet).1
    = Val (VStr "stub", label, None)
    ∧ label = "Pending".
Proof.
  destruct (proj1 (updateRefreshFunc_compares_block_fields
                     client flattenIP flattenCountry)
              (ip_block true) untrusted_yet
              (Some (office "Head office" false)) 200
              (<["ip_ranges" := strings (Some ["10.0.0.0/8"])]>
                 (<["trusted" := VBool false]> ∅)) []
              (<["ip_ranges" := strings (Some ["10.0.0.0/8"])]>
                 (<["trusted" := VBool true]> ∅)) []
              false true eq_refl eq_refl eq_refl eq_refl eq_refl)
    as (label & Hrun & _ & Hpending).
  exists label. split; [exact Hrun|].
  apply Hpending. right. discriminate.
Defined.

(** An observation that differs in one compared field and then agrees:
    the closure reports [Pending], then [Updated]. *)
Example update_check_sequence :
  let refresh := updateRefreshFunc_ip client flattenIP (ip_block true) in
  let first := refresh converging in
  let second := refresh first.2 in
  (first.1, second.1)
  = (Val (VStr "stub", "Pending", None), Val (VStr "stub", "Updated", None)).
Proof. vm_compute. reflexivity. Qed.

(** The read sequence found, found, not found: the check reports
    [Pending], [Pending], [Absent]. *)
Example deletion_check_sequence :
  let refresh := deletionRefresh (deletionCheck client office_id) in
  let first := refresh vanishing in
  let second := refresh first.2 in
  let third := refresh second.2 in
  (first.1, second.1, third.1)
  = (Val (VStr "stub", "Pending", None),
     Val (VStr "stub", "Pending", None),
     Val (VStr "stub", "Absent", None)).
Proof. vm_compute. reflexivity. Qed.

(** A read that fails with status 500 ends the deletion wait at its first
    probe with the error of the read. *)
Lemma deletionCheck_reports_witness :
  (deletionCheck client office_id outage).1
  = Val (None, Some "connection reset by peer")
  ∧ (deletionRefresh (deletionCheck client office_id) outage).1
    = Val (VNil, "Error", Some "connection reset by peer")
  ∧ (WaitForDeletion 3 ten_probes (deletionCheck client office_id) outage).1
    = Val (Some "connection reset by peer")
  ∧ requests (WaitForDeletion 3 ten_probes
                (deletionCheck client office_id) outage).2
    = [check_call office_id].
Proof.
  destruct (deletionCheck_reports client 3 office_id outage
              None 500 (Some "connection reset by peer") eq_refl)
    as (Hcheck & Hlabel & Hwait).
  destruct (Hwait "connection reset by peer" ten_probes eq_refl)
    as [Herr Hreq]; [discriminate|discriminate|].
  split_and!; [exact Hcheck|exact Hlabel|exact Herr|exact Hreq].
Defined.

(** C3, counterexample: the create of [creating] ends without a
    diagnostic after two requests, the create and the [Get] of the read;
    no probe lies between them, and the block read back differs from the
    configured one. *)
Lemma create_reads_without_polling :
  let run := scripted.Create creating in
  run.1 = Val []
  ∧ (∃ p, requests run.2
          = [{| issued := CreateIPReq p; retries_disabled := false |};
             {| issued := GetReq office_id; retries_disabled := false |}])
  ∧ ¬ polled_between (requests run.2)
  ∧ DeepEqual (index (attrs (d run.2)) "ip") (ip_block true) = false.
Proof.
  split_and!.
  - vm_compute. reflexivity.
  - eexists. vm_compute. reflexivity.
  - intros (c & probes & r & Hprobes & Htrace).
    assert (Hlen : length (requests (scripted.Create creating).2) = 2%nat)
      by (vm_compute; reflexivity).
    rewrite Htrace in Hlen. simpl in Hlen. rewrite length_app in Hlen.
    destruct probes as [|probe probes]; [done|]. simpl in Hlen. lia.
  - vm_compute. reflexivity.
Qed.

(** C4, the code at a result of neither location type: the read ends
    without a diagnostic and the resource data is as it was. *)
Theorem read_unrecognised_subtype_is_silent :
  scripted.Read unknown_kind
  = (Val [], sent (GetReq office_id) [] unknown_kind)
  ∧ d (scripted.Read unknown_kind).2 = d unknown_kind.
Proof. split; vm_compute; reflexivity. Qed.

(** C5, the code at a transport error with status 500: the read reports
    a bad response, and the transport error is in no diagnostic. *)
Theorem read_masks_transport_error :
  (scripted.Read outage).1
  = Val (tf_ErrorDiagF "Bad API response" "Result is nil" [])
  ∧ ∀ diags diag,
      (scripted.Read outage).1 = Val diags → diag ∈ diags →
      Detail diag ≠ "connection reset by peer".
Proof.
  split; [vm_compute; reflexivity|].
  intros diags diag [= <-] Hin.
  apply list_elem_of_singleton in Hin as ->. discriminate.
Qed.

(** C6, counterexample: the location is already gone and neither block is
    configured. No existence check is made; the delete request is the
    only request, the service answers it with not found, and the delete
    reports that as an error. *)
Lemma delete_of_absent_without_block_fails :
  let run := scripted.Delete 3 ten_probes delete_unconfigured in
  is_zero (index (attrs (d delete_unconfigured)) "ip") = true
  ∧ is_zero (index (attrs (d delete_unconfigured)) "country") = true
  ∧ (serve_Delete client false office_id (remote delete_unconfigured)).1
    = (StatusNotFound, Some "not found")
  ∧ requests run.2
    = [{| issued := DeleteReq office_id; retries_disabled := false |}]
  ∧ run.1
    = Val (tf_ErrorDiagPathF "not found" "id"
             "Deleting named location with ID %q, got status %d"
             [ArgStr office_id; ArgInt 404])
  ∧ run.1 ≠ Val [].
Proof.
  split_and!; try (vm_compute; reflexivity).
  vm_compute. discriminate.
Qed.

(** Deletes of locations that are already gone: noticed by the check of
    the [ip] block, by the check of the [country] block, and by the check
    of the [country] block after the one of the [ip] block, without and
    with the withdrawal of trust in between. *)
Lemma delete_already_absent_witness :
  let get_ip := {| issued := GetIPReq office_id; retries_disabled := false |} in
  let get_country :=
    {| issued := GetCountryReq office_id; retries_disabled := false |} in
  let update :=
    {| issued := UpdateIPReq (untrust office_id);
       retries_disabled := false |} in
  ((scripted.Delete 3 ten_probes already_gone).1 = Val []
   ∧ d (scripted.Delete 3 ten_probes already_gone).2 = d already_gone
   ∧ requests (scripted.Delete 3 ten_probes already_gone).2 = [get_ip])
  ∧ ((scripted.Delete 3 ten_probes country_gone).1 = Val []
     ∧ d (scripted.Delete 3 ten_probes country_gone).2 = d country_gone
     ∧ requests (scripted.Delete 3 ten_probes country_gone).2 = [get_country])
  ∧ ((scripted.Delete 3 ten_probes delete_both).1 = Val []
     ∧ d (scripted.Delete 3 ten_probes delete_both).2 = d delete_both
     ∧ requests (scripted.Delete 3 ten_probes delete_both).2
       = [get_ip; get_country])
  ∧ ((scripted.Delete 3 ten_probes trusted_both_gone).1 = Val []
     ∧ d (scripted.Delete 3 ten_probes trusted_both_gone).2
       = d trusted_both_gone
     ∧ requests (scripted.Delete 3 ten_probes trusted_both_gone).2
       = [get_ip; update; get_country]).
Proof.
  intros get_ip get_country update. split; [|split; [|split]].
  - apply (proj1 (delete_already_absent client 3 ten_probes already_gone
                    "not found") None);
      reflexivity.
  - apply (proj1 (proj2 (delete_already_absent client 3 ten_probes
                           country_gone "not found")) None);
      reflexivity.
  - apply (proj1 (proj2 (proj2 (delete_already_absent client 3 ten_probes
                                  delete_both "not found")))
             (Some (office "Head office" false)) 200 [not_found] None);
      try reflexivity.
    right. exists (office "Head office" false). split; [reflexivity|].
    right. reflexivity.
  - apply (proj2 (proj2 (proj2 (delete_already_absent client 3 ten_probes
                                  trusted_both_gone "not found")))
             (office "Head office" true) 200 [accepted; not_found]
             204 [not_found] None);
      reflexivity.
Defined.

(** The read of a country location leaves [ip] unset. *)
Lemma read_populates_matching_subtype_only_witness :
  (scripted.Read country_read).1 = Val []
  ∧ d (scripted.Read country_read).2
    = populate office_id (Some "Nordics") "country"
        (flattenCountry (Some nordics)) (d country_read)
  ∧ attrs (d (scripted.Read country_read).2) !! "ip" = None
  ∧ ∀ k, k ≠ "display_name" → k ≠ "country" →
         attrs (d (scripted.Read country_read).2) !! k
         = attrs (d country_read) !! k.
Proof.
  destruct (proj1 (read_populates_matching_subtype_only
                     client flattenIP flattenCountry country_read
                     (IsCountry nordics) 200 None eq_refl eq_refl)
              nordics
              {| ID := Some office_id; DisplayName := Some "Nordics" |}
              office_id eq_refl eq_refl eq_refl)
    as (Hdiags & Hd & Hip & Hframe).
  unfold scripted.Read.
  split_and!; [exact Hdiags|exact Hd| |exact Hframe].
  rewrite Hip. reflexivity.
Defined.

(** The delete of a trusted office: lookup, update, delete, checks. The
    delete of an office whose [IsTrusted] is unset: lookup, delete,
    checks, and no update. *)
Lemma delete_untrusts_before_deleting_witness :
  (∃ rest,
     requests (scripted.Delete 1 ten_probes trusted_delete).2
     = [{| issued := GetIPReq office_id; retries_disabled := false |};
        {| issued := UpdateIPReq (untrust office_id);
           retries_disabled := false |}] ++ rest
     ∧ (∀ c p, c ∈ rest → issued c ≠ UpdateIPReq p)
     ∧ ∃ n, rest = {| issued := DeleteReq office_id;
                      retries_disabled := false |}
                   :: replicate n (check_call office_id))
  ∧ (∃ rest,
       requests (scripted.Delete 1 ten_probes unmarked_delete).2
       = {| issued := GetIPReq office_id; retries_disabled := false |} :: rest
       ∧ (∀ c p, c ∈ rest → issued c ≠ UpdateIPReq p)
       ∧ ∃ n, rest = {| issued := DeleteReq office_id;
                        retries_disabled := false |}
                     :: replicate n (check_call office_id)).
Proof.
  split.
  - destruct (delete_untrusts_before_deleting client 1 ten_probes
                trusted_delete (Some (office "Head office" true)) 200
                eq_refl eq_refl)
      as (updates & rest & Hreq & Htrusted & _ & Hnone & Hdelete).
    rewrite Htrusted in Hreq
      by (exists (office "Head office" true); split; reflexivity).
    exists rest. split_and!; [exact Hreq|exact Hnone|].
    apply Hdelete; vm_compute; reflexivity.
  - destruct (delete_untrusts_before_deleting client 1 ten_probes
                unmarked_delete (Some unmarked) 200 eq_refl eq_refl)
      as (updates & rest & Hreq & _ & Hnot & Hnone & Hdelete).
    rewrite Hnot in Hreq
      by (right; exists unmarked; split; [reflexivity|left; reflexivity]).
    exists rest. split_and!; [exact Hreq|exact Hnone|].
    apply Hdelete; vm_compute; reflexivity.
Defined.

End Runs.

(** * Further properties of the resource functions *)

Section Read_properties.

Context {R : Type}.
Variable client : Client R.
Variable flattenIPauthenticationStrength :
  option IPauthenticationStrength → list value.
Variable flattenCountryauthenticationStrength :
  option CountryauthenticationStrength → list value.

Abbreviation St := (state R).
Abbreviation Read :=
  (authenticationStrengthResourceRead client
     flattenIPauthenticationStrength flattenCountryauthenticationStrength).

(** The state a read ends in differs from the one after its request in
    the resource data at most. *)
Lemma Read_state (s : St) :
  ∃ rd,
    (Read s).2
    = set_d (λ _, rd)
        (sent (GetReq (Id (d s)))
           (serve_Get client (DisableRetries s) (Id (d s)) (remote s)).2 s).
Proof.
  destruct (serve_Get client (DisableRetries s) (Id (d s)) (remote s))
    as [[[result status] err] r'] eqn:Hget.
  destruct (bool_decide (is_Some err) && (status =? StatusNotFound)) eqn:Hnf.
  - apply andb_true_iff in Hnf as [Herr Hst].
    apply bool_decide_eq_true in Herr as [e ->].
    apply Z.eqb_eq in Hst as ->.
    rewrite (Read_not_found client _ _ s result e r') by done. by eexists.
  - rewrite (Read_dispatch client _ _ s result status err r') by done.
    destruct result as [[ipnl|cnl|ty]|]; simpl.
    + destruct (IPBase ipnl) as [[[id|] name]|]; simpl;
        first [by eexists | by exists (d s); destruct s].
    + destruct (CountryBase cnl) as [[[id|] name]|]; simpl;
        first [by eexists | by exists (d s); destruct s].
    + by exists (d s); destruct s.
    + by exists (d s); destruct s.
Qed.

(** X1: a read fetches once. Whatever the service answers, the read sends
    exactly one request, the [Get] of the current identifier, under the
    current [DisableRetries] flag, and leaves the flag as it was. *)
Theorem read_fetches_once (s : St) :
  requests (Read s).2
  = requests s ++ [{| issued := GetReq (Id (d s));
                      retries_disabled := DisableRetries s |}]
  ∧ DisableRetries (Read s).2 = DisableRetries s
  ∧ remote (Read s).2
    = (serve_Get client (DisableRetries s) (Id (d s)) (remote s)).2.
Proof. destruct (Read_state s) as [rd ->]. done. Qed.

(** X2: a read that does not end cleanly changes nothing in the resource
    data. When the read reports a diagnostic or panics, identifier and
    attributes are exactly as before; and the only cause a diagnostic of
    the read ever carries is ["Bad API response"], with no attribute
    path. *)
Theorem read_failure_leaves_data (s : St) :
  (Read s).1 ≠ Val [] →
  d (Read s).2 = d s
  ∧ ∀ diags diag,
      (Read s).1 = Val diags → diag ∈ diags →
      Detail diag = "Bad API response" ∧ AttributePath diag = EmptyString.
Proof.
  destruct (serve_Get client (DisableRetries s) (Id (d s)) (remote s))
    as [[[result status] err] r'] eqn:Hget.
  destruct (bool_decide (is_Some err) && (status =? StatusNotFound)) eqn:Hnf.
  - apply andb_true_iff in Hnf as [Herr Hst].
    apply bool_decide_eq_true in Herr as [e ->].
    apply Z.eqb_eq in Hst as ->.
    rewrite (Read_not_found client _ _ s result e r') by done. done.
  - rewrite (Read_dispatch client _ _ s result status err r') by done.
    assert (Hbad : ∀ summary diags diag,
               Val (tf_ErrorDiagF "Bad API response" summary []) = Val diags →
               diag ∈ diags →
               Detail diag = "Bad API response"
               ∧ AttributePath diag = EmptyString).
    { intros summary diags diag [= <-] Hin.
      by apply list_elem_of_singleton in Hin as ->. }
    destruct result as [[ipnl|cnl|ty]|]; simpl.
    + destruct (IPBase ipnl) as [[[id|] name]|]; simpl; intros Hne;
        try done; split; try done; eauto.
    + destruct (CountryBase cnl) as [[[id|] name]|]; simpl; intros Hne;
        try done; split; try done; eauto.
    + done.
    + intros _. split; [done|]. eauto.
Qed.

(** X3: a read that is answered with an error and status 404 takes the
    resource out of the state: the identifier is cleared, the attributes
    stay, and no diagnostic is reported, whatever result came with the
    answer. *)
Theorem read_not_found_clears_id (s : St) result e :
  (serve_Get client (DisableRetries s) (Id (d s)) (remote s)).1
  = (result, StatusNotFound, Some e) →
  (Read s).1 = Val []
  ∧ Id (d (Read s).2) = EmptyString
  ∧ attrs (d (Read s).2) = attrs (d s).
Proof.
  intros Hget.
  destruct (serve_Get client (DisableRetries s) (Id (d s)) (remote s))
    as [[[? ?] ?] r'] eqn:Hrun.
  simpl in Hget. injection Hget as -> -> ->.
  by rewrite (Read_not_found client _ _ s result e r').
Qed.

(** X4: a read stores all of a location or nothing of it. The resource
    data after a read is the data before it, or the data with the
    identifier cleared, or the data with identifier, display name and one
    block ([ip] or [country]) stored together; the last two only when no
    diagnostic is reported. *)
Theorem read_is_all_or_nothing (s : St) :
  d (Read s).2 = d s
  ∨ ((Read s).1 = Val []
     ∧ d (Read s).2
       = {| Id := EmptyString; attrs := attrs (d s); prior := prior (d s) |})
  ∨ ((Read s).1 = Val []
     ∧ ∃ id name key block,
         (key = "ip" ∨ key = "country")
         ∧ d (Read s).2 = populate id name key block (d s)).
Proof.
  destruct (serve_Get client (DisableRetries s) (Id (d s)) (remote s))
    as [[[result status] err] r'] eqn:Hget.
  destruct (bool_decide (is_Some err) && (status =? StatusNotFound)) eqn:Hnf.
  - apply andb_true_iff in Hnf as [Herr Hst].
    apply bool_decide_eq_true in Herr as [e ->].
    apply Z.eqb_eq in Hst as ->.
    rewrite (Read_not_found client _ _ s result e r') by done. by right; left.
  - rewrite (Read_dispatch client _ _ s result status err r') by done.
    destruct result as [[ipnl|cnl|ty]|]; simpl; auto.
    + destruct (IPBase ipnl) as [[[id|] name]|]; simpl; auto.
      right; right. split; [done|]. exists id, name, "ip". eauto.
    + destruct (CountryBase cnl) as [[[id|] name]|]; simpl; auto.
      right; right. split; [done|]. exists id, name, "country". eauto.
Qed.

(** X5: a location whose embedded base pointer is nil makes the read
    panic on the first field it reads through it; the resource data is
    untouched. *)
Theorem read_nil_base_panics (s : St) loc status err :
  (serve_Get client (DisableRetries s) (Id (d s)) (remote s)).1
  = (Some loc, status, err) →
  bool_decide (is_Some err) && (status =? StatusNotFound) = false →
  match loc with
  | IsIP ipnl => IPBase ipnl = None
  | IsCountry cnl => CountryBase cnl = None
  | IsOther _ => False
  end →
  (Read s).1 = Panic "invalid memory address or nil pointer dereference"
  ∧ d (Read s).2 = d s.
Proof.
  intros Hget Hnot Hnil.
  destruct (serve_Get client (DisableRetries s) (Id (d s)) (remote s))
    as [[[? ?] ?] r'] eqn:Hrun.
  simpl in Hget. injection Hget as -> -> ->.
  rewrite (Read_dispatch client _ _ s (Some loc) status err r') by done.
  destruct loc as [ipnl|cnl|ty]; [| |done]; simpl; by rewrite Hnil.
Qed.

End Read_properties.

(** X6: when a result comes with the answer and the status is not 404,
    the read does not look at the error: against two clients that answer
    alike except for the error, the read ends alike. *)
Theorem read_ignores_error_beside_result {R} (failing succeeding : Client R)
    (flattenIPauthenticationStrength :
       option IPauthenticationStrength → list value)
    (flattenCountryauthenticationStrength :
       option CountryauthenticationStrength → list value)
    (s : state R) loc status e r' :
  serve_Get failing (DisableRetries s) (Id (d s)) (remote s)
  = ((Some loc, status, Some e), r') →
  serve_Get succeeding (DisableRetries s) (Id (d s)) (remote s)
  = ((Some loc, status, None), r') →
  status ≠ StatusNotFound →
  authenticationStrengthResourceRead failing
    flattenIPauthenticationStrength flattenCountryauthenticationStrength s
  = authenticationStrengthResourceRead succeeding
      flattenIPauthenticationStrength flattenCountryauthenticationStrength s.
Proof.
  intros Hfail Hok Hstatus. apply Z.eqb_neq in Hstatus.
  rewrite (Read_dispatch failing _ _ s (Some loc) status (Some e) r'),
    (Read_dispatch succeeding _ _ s (Some loc) status None r');
    [done|done|done|done|].
  by rewrite Hstatus, andb_false_r.
Qed.

Section Create_properties.

Context {R : Type}.
Variable client : Client R.
Variable flattenIPauthenticationStrength :
  option IPauthenticationStrength → list value.
Variable flattenCountryauthenticationStrength :
  option CountryauthenticationStrength → list value.
Variable expandIPauthenticationStrength :
  list value → option IPauthenticationStrength.
Variable expandCountryauthenticationStrength :
  list value → option CountryauthenticationStrength.
Variable base : BaseauthenticationStrength.

Abbreviation St := (state R).
Abbreviation Read :=
  (authenticationStrengthResourceRead client
     flattenIPauthenticationStrength flattenCountryauthenticationStrength).
Abbreviation Create :=
  (authenticationStrengthResourceCreate client
     flattenIPauthenticationStrength flattenCountryauthenticationStrength
     expandIPauthenticationStrength expandCountryauthenticationStrength base).

(** The [ip] branch of a create, from the answer to its request on. *)
Lemma Create_ip_branch (s : St) name description l properties
    ipLocation status err r' :
  index (attrs (d s)) "display_name" = VStr name →
  index (attrs (d s)) "description" = VStr description →
  index (attrs (d s)) "ip" = VList l →
  l ≠ [] →
  expandIPauthenticationStrength l = Some properties →
  serve_CreateIP client (DisableRetries s) (with_base base properties)
    (remote s) = ((ipLocation, status, err), r') →
  Create s =
    let s1 := sent (CreateIPReq (with_base base properties)) r' s in
    match err with
    | Some e => (Val (tf_ErrorDiagF e "Could not create named location" []), s1)
    | None =>
        match ipLocation with
        | None =>
            (Panic "invalid memory address or nil pointer dereference", s1)
        | Some created =>
            match IPBase created with
            | None =>
                (Panic "invalid memory address or nil pointer dereference", s1)
            | Some b =>
                match ID b with
                | Some (String c id') =>
                    Read (set_d (λ rd, {| Id := String c id';
                                          attrs := attrs rd;
                                          prior := prior rd |}) s1)
                | _ =>
                    (Val (tf_ErrorDiagF "Bad API response"
                            "Object ID returned for named location is nil/empty"
                            []), s1)
                end
            end
        end
    end.
Proof.
  intros Hname Hdescription Hip Hl Hexpand Hcreate.
  unfold authenticationStrengthResourceCreate. run.
  rewrite Hname, Hdescription, Hip. simpl.
  rewrite bool_decide_eq_false_2 by done. simpl.
  rewrite Hexpand. simpl. unfold with_base in Hcreate. rewrite Hcreate.
  destruct err as [e|]; [done|]. simpl.
  destruct ipLocation as [created|]; [|done]. simpl.
  destruct (IPBase created) as [[[[|c id']|] bname]|]; done.
Qed.

(** The [country] branch of a create, from the answer to its request on. *)
Lemma Create_country_branch (s : St) name description l properties
    countryLocation status err r' :
  index (attrs (d s)) "display_name" = VStr name →
  index (attrs (d s)) "description" = VStr description →
  is_zero (index (attrs (d s)) "ip") = true →
  index (attrs (d s)) "country" = VList l →
  l ≠ [] →
  expandCountryauthenticationStrength l = Some properties →
  serve_CreateCountry client (DisableRetries s)
    (with_country_base base properties) (remote s)
  = ((countryLocation, status, err), r') →
  Create s =
    let s1 := sent (CreateCountryReq (with_country_base base properties)) r' s in
    match err with
    | Some e => (Val (tf_ErrorDiagF e "Could not create named location" []), s1)
    | None =>
        match countryLocation with
        | None =>
            (Panic "invalid memory address or nil pointer dereference", s1)
        | Some created =>
            match CountryBase created with
            | None =>
                (Panic "invalid memory address or nil pointer dereference", s1)
            | Some b =>
                match ID b with
                | Some (String c id') =>
                    Read (set_d (λ rd, {| Id := String c id';
                                          attrs := attrs rd;
                                          prior := prior rd |}) s1)
                | _ =>
                    (Val (tf_ErrorDiagF "Bad API response"
                            "Object ID returned for named location is nil/empty"
                            []), s1)
                end
            end
        end
    end.
Proof.
  intros Hname Hdescription Hip Hcountry Hl Hexpand Hcreate.
  unfold authenticationStrengthResourceCreate. run.
  rewrite Hname, Hdescription. simpl. rewrite Hip. simpl.
  rewrite Hcountry. simpl.
  rewrite bool_decide_eq_false_2 by done. simpl.
  rewrite Hexpand. simpl. unfold with_country_base in Hcreate. rewrite Hcreate.
  destruct err as [e|]; [done|]. simpl.
  destruct countryLocation as [created|]; [|done]. simpl.
  destruct (CountryBase created) as [[[[|c id']|] bname]|]; done.
Qed.

(** C3 as the code has it: a create with a configured block sends its
    create request first, whatever the answer to it; when the answer
    carries no error and a non-empty identifier, the create stores that
    identifier and continues at once as the read of it, so that its log is
    the create request followed by the one [Get] of that read. This holds
    in the [ip] branch and, without an [ip] block, in the [country]
    branch. No create sends anything else: nothing is polled between the
    create request and the read. *)
Theorem create_reads_right_after_create (s : St) :
  let stored id :=
    set_d (λ rd, {| Id := id; attrs := attrs rd; prior := prior rd |}) in
  (∀ name description l properties ipLocation status err r',
     index (attrs (d s)) "display_name" = VStr name →
     index (attrs (d s)) "description" = VStr description →
     index (attrs (d s)) "ip" = VList l →
     l ≠ [] →
     expandIPauthenticationStrength l = Some properties →
     serve_CreateIP client (DisableRetries s) (with_base base properties)
       (remote s) = ((ipLocation, status, err), r') →
     let create := CreateIPReq (with_base base properties) in
     (∃ rest, requests (Create s).2 = requests s ++ logged create s :: rest)
     ∧ ∀ created b c id',
         err = None → ipLocation = Some created →
         IPBase created = Some b → ID b = Some (String c id') →
         Create s = Read (stored (String c id') (sent create r' s))
         ∧ requests (Create s).2
           = requests s ++ [logged create s;
                            logged (GetReq (String c id')) s])
  ∧ (∀ name description l properties countryLocation status err r',
       index (attrs (d s)) "display_name" = VStr name →
       index (attrs (d s)) "description" = VStr description →
       is_zero (index (attrs (d s)) "ip") = true →
       index (attrs (d s)) "country" = VList l →
       l ≠ [] →
       expandCountryauthenticationStrength l = Some properties →
       serve_CreateCountry client (DisableRetries s)
         (with_country_base base properties) (remote s)
       = ((countryLocation, status, err), r') →
       let create := CreateCountryReq (with_country_base base properties) in
       (∃ rest, requests (Create s).2 = requests s ++ logged create s :: rest)
       ∧ ∀ created b c id',
           err = None → countryLocation = Some created →
           CountryBase created = Some b → ID b = Some (String c id') →
           Create s = Read (stored (String c id') (sent create r' s))
           ∧ requests (Create s).2
             = requests s ++ [logged create s;
                              logged (GetReq (String c id')) s])
  ∧ ((requests (Create s).2 = requests s ∧ (Create s).1 ≠ Val [])
     ∨ (∃ c, is_create (issued c) = true
             ∧ requests (Create s).2 = requests s ++ [c]
             ∧ (Create s).1 ≠ Val [])
     ∨ (∃ c s1,
          is_create (issued c) = true
          ∧ requests s1 = requests s ++ [c]
          ∧ Id (d s1) ≠ EmptyString
          ∧ Create s = Read s1
          ∧ requests (Create s).2
            = requests s ++ [c; logged (GetReq (Id (d s1))) s])).
Proof.
  intros stored. split_and!.
  - intros name description l properties ipLocation status err r'
           Hname Hdescription Hip Hl Hexpand Hcreate create.
    rewrite (Create_ip_branch s name description l properties
               ipLocation status err r') by done.
    fold create. split.
    + destruct err as [e|]; [by exists []|].
      destruct ipLocation as [created|]; [|by exists []]. simpl.
      destruct (IPBase created) as [[[[|c id']|] bname]|];
        try by exists [].
      simpl. rewrite Read_requests. simpl. rewrite <-app_assoc. simpl.
      by eexists.
    + intros created b c id' -> -> Hb Hid. simpl. rewrite Hb, Hid.
      split; [done|].
      rewrite Read_requests. simpl. by rewrite <-app_assoc.
  - intros name description l properties countryLocation status err r'
           Hname Hdescription Hip Hcountry Hl Hexpand Hcreate create.
    rewrite (Create_country_branch s name description l properties
               countryLocation status err r') by done.
    fold create. split.
    + destruct err as [e|]; [by exists []|].
      destruct countryLocation as [created|]; [|by exists []]. simpl.
      destruct (CountryBase created) as [[[[|c id']|] bname]|];
        try by exists [].
      simpl. rewrite Read_requests. simpl. rewrite <-app_assoc. simpl.
      by eexists.
    + intros created b c id' -> -> Hb Hid. simpl. rewrite Hb, Hid.
      split; [done|].
      rewrite Read_requests. simpl. by rewrite <-app_assoc.
  - apply Create_requests.
Qed.

(** X7: a create needs a block. With neither [ip] nor [country]
    configured the create reports that one of them must be specified; it
    sends nothing and changes nothing. *)
Theorem create_needs_a_block (s : St) name description :
  index (attrs (d s)) "display_name" = VStr name →
  index (attrs (d s)) "description" = VStr description →
  is_zero (index (attrs (d s)) "ip") = true →
  is_zero (index (attrs (d s)) "country") = true →
  Create s =
    (Val (tf_ErrorDiagF "one of `ip` or `country` must be specified"
            "Unable to determine named location type" []), s).
Proof.
  intros Hname Hdescription Hip Hcountry.
  unfold authenticationStrengthResourceCreate. run.
  rewrite Hname, Hdescription. simpl. rewrite Hip. simpl.
  by rewrite Hcountry.
Qed.

(** X8: [ip] wins over [country]. When the [ip] block is configured a
    create never sends a country create request, whether or not a
    [country] block is configured as well. *)
Theorem create_prefers_ip (s : St) :
  is_zero (index (attrs (d s)) "ip") = false →
  ∃ new,
    requests (Create s).2 = requests s ++ new
    ∧ ∀ c p, c ∈ new → issued c ≠ CreateCountryReq p.
Proof.
  intros Hip. unfold authenticationStrengthResourceCreate. run.
  assert (Hnone : ∀ c p, c ∈ @nil call → issued c ≠ CreateCountryReq p).
  { intros c p Hc. by apply elem_of_nil in Hc. }
  assert (Hstop : ∃ new, requests s = requests s ++ new
             ∧ ∀ c p, c ∈ new → issued c ≠ CreateCountryReq p).
  { exists []. by rewrite app_nil_r. }
  destruct (index (attrs (d s)) "display_name"); simpl; try exact Hstop.
  destruct (index (attrs (d s)) "description"); simpl; try exact Hstop.
  rewrite Hip. simpl.
  destruct (index (attrs (d s)) "ip") as [| | |l|]; simpl; try exact Hstop.
  destruct (expandIPauthenticationStrength l) as [properties|]; simpl; try exact Hstop.
  destruct (serve_CreateIP client _ _ _)
    as [[[[created|] status] [e|]] r']; simpl;
    try (eexists [_]; split; [reflexivity|];
         intros c p Hc; by apply list_elem_of_singleton in Hc as ->).
  destruct (IPBase created) as [[[[|c id']|] bname]|]; simpl;
    try (eexists [_]; split; [reflexivity|];
         intros c0 p Hc; by apply list_elem_of_singleton in Hc as ->).
  rewrite Read_requests. simpl. rewrite <-app_assoc. simpl.
  eexists. split; [reflexivity|].
  intros c0 p Hc.
  apply elem_of_cons in Hc as [->|Hc]; [done|].
  by apply list_elem_of_singleton in Hc as ->.
Qed.

(** X9: a create that gets no usable identifier stores nothing. In the
    [ip] branch, when the create request fails its error is reported, and
    when it succeeds with a nil or empty ID a bad response is reported; in
    both cases the create request is the only request sent and the
    resource data, the identifier included, is as before. *)
Theorem create_without_identifier_stores_nothing (s : St) name description
    l properties ipLocation status err r' :
  index (attrs (d s)) "display_name" = VStr name →
  index (attrs (d s)) "description" = VStr description →
  index (attrs (d s)) "ip" = VList l →
  l ≠ [] →
  expandIPauthenticationStrength l = Some properties →
  serve_CreateIP client (DisableRetries s) (with_base base properties)
    (remote s) = ((ipLocation, status, err), r') →
  (∀ e, err = Some e →
        Create s =
          (Val (tf_ErrorDiagF e "Could not create named location" []),
           sent (CreateIPReq (with_base base properties)) r' s))
  ∧ (∀ created b,
       err = None → ipLocation = Some created → IPBase created = Some b →
       ID b = None ∨ ID b = Some EmptyString →
       Create s =
         (Val (tf_ErrorDiagF "Bad API response"
                 "Object ID returned for named location is nil/empty" []),
          sent (CreateIPReq (with_base base properties)) r' s)).
Proof.
  intros Hname Hdescription Hip Hl Hexpand Hcreate.
  rewrite (Create_ip_branch s name description l properties
             ipLocation status err r') by done.
  split.
  - by intros e ->.
  - intros created b -> -> Hb Hid. simpl. rewrite Hb.
    by destruct Hid as [->| ->].
Qed.

(** X10: a create whose read-back is not found ends without diagnostic
    and without identifier. In the [ip] branch, when the create request
    succeeds with a non-empty ID and the [Get] of the read that follows is
    answered with an error and status 404, the create reports nothing and
    leaves the identifier empty; the attributes are as configured. *)
Theorem create_then_not_found (s : St) name description l properties
    created b c id' status r' result e :
  index (attrs (d s)) "display_name" = VStr name →
  index (attrs (d s)) "description" = VStr description →
  index (attrs (d s)) "ip" = VList l →
  l ≠ [] →
  expandIPauthenticationStrength l = Some properties →
  serve_CreateIP client (DisableRetries s) (with_base base properties)
    (remote s) = ((Some created, status, None), r') →
  IPBase created = Some b →
  ID b = Some (String c id') →
  (serve_Get client (DisableRetries s) (String c id') r').1
  = (result, StatusNotFound, Some e) →
  (Create s).1 = Val []
  ∧ Id (d (Create s).2) = EmptyString
  ∧ attrs (d (Create s).2) = attrs (d s)
  ∧ requests (Create s).2
    = requests s
      ++ [{| issued := CreateIPReq (with_base base properties);
             retries_disabled := DisableRetries s |};
          {| issued := GetReq (String c id');
             retries_disabled := DisableRetries s |}].
Proof.
  intros Hname Hdescription Hip Hl Hexpand Hcreate Hb Hid Hget.
  rewrite (Create_ip_branch s name description l properties
             (Some created) status None r') by done.
  simpl. rewrite Hb, Hid.
  destruct (serve_Get client (DisableRetries s) (String c id') r')
    as [[[? ?] ?] r''] eqn:Hrun.
  simpl in Hget. injection Hget as -> -> ->.
  erewrite Read_not_found by (simpl; exact Hrun).
  simpl. by rewrite <-app_assoc.
Qed.

End Create_properties.

Section Refresh_properties.

Context {R : Type}.
Variable client : Client R.
Variable flattenIPauthenticationStrength :
  option IPauthenticationStrength → list value.
Variable flattenCountryauthenticationStrength :
  option CountryauthenticationStrength → list value.

Abbreviation St := (state R).
Abbreviation refresh_ip :=
  (updateRefreshFunc_ip client flattenIPauthenticationStrength).
Abbreviation refresh_country :=
  (updateRefreshFunc_country client flattenCountryauthenticationStrength).

(** Case analysis on the scrutinees of a closure: variables, flattened
    locations, indexed fields and comparisons. *)
Ltac cases :=
  repeat (simpl;
          match goal with
          | |- context [match ?x with _ => _ end] => is_var x; destruct x
          | |- context [match ?f ?x with _ => _ end] => is_var f; destruct (f x)
          | |- context [match index ?m ?k with _ => _ end] =>
              destruct (index m k)
          | |- context [DeepEqual ?a ?b] => destruct (DeepEqual a b)
          | |- context [eqb ?a ?b] => destruct (eqb a b)
          end).

(** Whatever a closure reports, its effect is its one request. *)
Lemma refresh_ip_state (v : value) (s : St) :
  ∃ o, refresh_ip v s
       = (o, sent (GetIPReq (Id (d s)))
               (serve_GetIP client (DisableRetries s) (Id (d s)) (remote s)).2
               s).
Proof.
  unfold updateRefreshFunc_ip. run.
  destruct (serve_GetIP client _ _ _) as [[[result status] err] r']. simpl.
  cases; eexists; reflexivity.
Qed.

Lemma refresh_country_state (v : value) (s : St) :
  ∃ o, refresh_country v s
       = (o, sent (GetCountryReq (Id (d s)))
               (serve_GetCountry client (DisableRetries s) (Id (d s))
                  (remote s)).2
               s).
Proof.
  unfold updateRefreshFunc_country. run.
  destruct (serve_GetCountry client _ _ _) as [[[result status] err] r'].
  simpl. cases; eexists; reflexivity.
Qed.

(** X11: a failed fetch is an error of the probe. When the fetch of a
    refresh closure fails, whatever the status, the closure reports a nil
    result under the label [Error] together with the error of the fetch,
    for the [ip] closure and the [country] closure alike. *)
Theorem refresh_reports_fetch_error (v : value) (s : St) :
  (∀ result status e,
     (serve_GetIP client (DisableRetries s) (Id (d s)) (remote s)).1
     = (result, status, Some e) →
     (refresh_ip v s).1 = Val (VNil, "Error", Some e))
  ∧ (∀ result status e,
       (serve_GetCountry client (DisableRetries s) (Id (d s)) (remote s)).1
       = (result, status, Some e) →
       (refresh_country v s).1 = Val (VNil, "Error", Some e)).
Proof.
  split; intros result status e Hget;
    [unfold updateRefreshFunc_ip|unfold updateRefreshFunc_country]; run.
  - destruct (serve_GetIP client _ _ _) as [[[? ?] ?] r'].
    simpl in Hget. by injection Hget as -> -> ->.
  - destruct (serve_GetCountry client _ _ _) as [[[? ?] ?] r'].
    simpl in Hget. by injection Hget as -> -> ->.
Qed.

(** X12: nothing to compare counts as converged. When the fetched
    location flattens to the empty list, a refresh closure reports
    [Updated] without looking at the configured block, whatever that block
    is. *)
Theorem refresh_empty_observation_is_updated (v : value) (s : St) :
  (∀ result status,
     (serve_GetIP client (DisableRetries s) (Id (d s)) (remote s)).1
     = (result, status, None) →
     flattenIPauthenticationStrength result = [] →
     (refresh_ip v s).1 = Val (VStr "stub", "Updated", None))
  ∧ (∀ result status,
       (serve_GetCountry client (DisableRetries s) (Id (d s)) (remote s)).1
       = (result, status, None) →
       flattenCountryauthenticationStrength result = [] →
       (refresh_country v s).1 = Val (VStr "stub", "Updated", None)).
Proof.
  split; intros result status Hget Hflat;
    [unfold updateRefreshFunc_ip|unfold updateRefreshFunc_country]; run.
  - destruct (serve_GetIP client _ _ _) as [[[? ?] ?] r'].
    simpl in Hget. injection Hget as -> -> ->. simpl. by rewrite Hflat.
  - destruct (serve_GetCountry client _ _ _) as [[[? ?] ?] r'].
    simpl in Hget. injection Hget as -> -> ->. simpl. by rewrite Hflat.
Qed.

(** X13: the list field is compared first. When the observed and the
    configured [ip_ranges] differ, the [ip] closure reports [Pending]
    without reading [trusted] on either side; when they agree and
    [trusted] is not a boolean in the observed block, the closure
    panics on the type assertion. *)
Theorem refresh_ip_compares_ranges_first (v : value) (s : St)
    result status location rest ip rest' :
  (serve_GetIP client (DisableRetries s) (Id (d s)) (remote s)).1
  = (result, status, None) →
  flattenIPauthenticationStrength result = VMap location :: rest →
  v = VList (VMap ip :: rest') →
  (index location "ip_ranges" ≠ index ip "ip_ranges" →
   (refresh_ip v s).1 = Val (VStr "stub", "Pending", None))
  ∧ (index location "ip_ranges" = index ip "ip_ranges" →
     (∀ b, index location "trusted" ≠ VBool b) →
     (refresh_ip v s).1 = Panic "interface conversion: not a bool").
Proof.
  intros Hget Hflat ->. unfold updateRefreshFunc_ip. run.
  destruct (serve_GetIP client _ _ _) as [[[? ?] ?] r'].
  simpl in Hget. injection Hget as -> -> ->. simpl. rewrite Hflat. simpl.
  split.
  - intros Hne. apply DeepEqual_neq in Hne. by rewrite Hne.
  - intros Heq Hbool. apply DeepEqual_eq in Heq. rewrite Heq. simpl.
    destruct (index location "trusted") as [|b| | |]; try done.
    by destruct (Hbool b).
Qed.

(** The polling primitive over a probe whose only effect is one request
    that depends on the identifier: nothing but that request is sent, once
    per round at most, and resource data and flag stay. *)
Lemma poll_probes (conf : StateChangeConf) (refresh : Probe)
    (rq : string → request) :
  (∀ s : St, ∃ o r', refresh s = (o, sent (rq (Id (d s))) r' s)) →
  ∀ rounds seen (s : St),
    ∃ n o s',
      poll conf refresh rounds seen s = (o, s')
      ∧ (n ≤ rounds)%nat
      ∧ requests s' = requests s ++ replicate n (logged (rq (Id (d s))) s)
      ∧ d s' = d s
      ∧ DisableRetries s' = DisableRetries s.
Proof.
  intros Hrefresh. induction rounds as [|rounds IH]; intros seen s.
  - exists 0%nat. do 2 eexists. split; [reflexivity|].
    simpl. by rewrite app_nil_r.
  - rewrite poll_round. destruct (Hrefresh s) as (o & r' & ->).
    set (s1 := sent (rq (Id (d s))) r' s).
    assert (Hone : ∀ o' : outcome (option error), ∃ n o'' s',
               (o', s1) = (o'', s') ∧ (n ≤ S rounds)%nat
               ∧ requests s' = requests s ++ replicate n (logged (rq (Id (d s))) s)
               ∧ d s' = d s ∧ DisableRetries s' = DisableRetries s).
    { intros o'. exists 1%nat, o', s1. split_and!; [done|lia|done..]. }
    assert (Hmore : ∀ seen', ∃ n o'' s',
               poll conf refresh rounds seen' s1 = (o'', s')
               ∧ (n ≤ S rounds)%nat
               ∧ requests s' = requests s ++ replicate n (logged (rq (Id (d s))) s)
               ∧ d s' = d s ∧ DisableRetries s' = DisableRetries s).
    { intros seen'.
      destruct (IH seen' s1) as (n & o'' & s' & -> & Hn & Hreq & Hd & Hflag).
      exists (S n), o'', s'. split_and!; [done|lia| |done|done].
      rewrite Hreq. simpl. by rewrite <-app_assoc. }
    destruct o as [[[result label] [e|]]|msg]; auto.
    repeat case_bool_decide; auto.
Qed.

(** The wait of an update over either closure. *)
Lemma poll_ip_probes (conf : StateChangeConf) (v : value)
    (rounds seen : nat) (s : St) :
  ∃ n o s',
    poll conf (refresh_ip v) rounds seen s = (o, s')
    ∧ (n ≤ rounds)%nat
    ∧ requests s' = requests s ++ replicate n (logged (GetIPReq (Id (d s))) s)
    ∧ d s' = d s
    ∧ DisableRetries s' = DisableRetries s.
Proof.
  apply (poll_probes conf (refresh_ip v) GetIPReq).
  intros s0. destruct (refresh_ip_state v s0) as [o ->]. eauto.
Qed.

Lemma poll_country_probes (conf : StateChangeConf) (v : value)
    (rounds seen : nat) (s : St) :
  ∃ n o s',
    poll conf (refresh_country v) rounds seen s = (o, s')
    ∧ (n ≤ rounds)%nat
    ∧ requests s' = requests s ++ replicate n (logged (GetCountryReq (Id (d s))) s)
    ∧ d s' = d s
    ∧ DisableRetries s' = DisableRetries s.
Proof.
  apply (poll_probes conf (refresh_country v) GetCountryReq).
  intros s0. destruct (refresh_country_state v s0) as [o ->]. eauto.
Qed.

End Refresh_properties.

Section Update_properties.

Context {R : Type}.
Variable client : Client R.
Variable flattenIPauthenticationStrength :
  option IPauthenticationStrength → list value.
Variable flattenCountryauthenticationStrength :
  option CountryauthenticationStrength → list value.
Variable expandIPauthenticationStrength :
  list value → option IPauthenticationStrength.
Variable expandCountryauthenticationStrength :
  list value → option CountryauthenticationStrength.

Abbreviation St := (state R).
Abbreviation Update :=
  (authenticationStrengthResourceUpdate client
     flattenIPauthenticationStrength flattenCountryauthenticationStrength
     expandIPauthenticationStrength expandCountryauthenticationStrength).

(** X14: an update needs a block. With neither [ip] nor [country]
    configured no refresh function is ever assigned, and the update ends
    in a panic without having sent a request or changed anything. *)
Theorem update_without_block_panics (ctx : Context) (s : St) :
  is_zero (index (attrs (d s)) "ip") = true →
  is_zero (index (attrs (d s)) "country") = true →
  ∃ msg, Update ctx s = (Panic msg, s).
Proof.
  intros Hip Hcountry. unfold authenticationStrengthResourceUpdate. run.
  destruct (DeepEqual _ _); simpl;
    [|destruct (index (attrs (d s)) "display_name"); simpl; eauto];
    rewrite Hip; simpl; rewrite Hcountry; simpl; eauto.
Qed.

(** X15: a failed update request ends the update. In the [ip] branch,
    when the update request fails, its error is reported together with
    the identifier; the request is the only one sent, nothing is polled
    or read, and the resource data is as before, also when a [country]
    block is configured as well. *)
Theorem update_stops_on_failure (ctx : Context) (s : St) name l properties
    status e r' :
  (changed (d s) "display_name" = true →
   index (attrs (d s)) "display_name" = VStr name) →
  index (attrs (d s)) "ip" = VList l →
  l ≠ [] →
  expandIPauthenticationStrength l = Some properties →
  serve_UpdateIP client (DisableRetries s)
    (with_base (update_base (d s) name) properties) (remote s)
  = ((status, Some e), r') →
  Update ctx s =
    (Val (tf_ErrorDiagF e "Could not update named location with ID %q: %+v"
            [ArgStr (Id (d s)); ArgErr e]),
     sent (UpdateIPReq (with_base (update_base (d s) name) properties)) r' s).
Proof.
  intros Hname Hip Hl Hexpand Hupdate.
  unfold authenticationStrengthResourceUpdate. run.
  unfold with_base, update_base, changed in *.
  destruct (DeepEqual _ _); simpl in *;
    [|rewrite Hname by done; simpl];
    rewrite Hip; simpl; rewrite bool_decide_eq_false_2 by done; simpl;
    rewrite Hexpand; simpl; by rewrite Hupdate.
Qed.

(** The wait of an update, replaced by what it leaves behind. *)
Ltac wait_out :=
  match goal with
  | |- context [poll ?conf (updateRefreshFunc_ip client ?f ?v) ?n ?k ?s0] =>
      let Hreq := fresh "Hreq" in
      let Hd := fresh "Hd" in
      let Hn := fresh "Hn" in
      destruct (poll_ip_probes client f conf v n k s0)
        as (probes & [[?|]|] & s' & -> & Hn & Hreq & Hd & Hflag)
  | |- context [poll ?conf (updateRefreshFunc_country client ?f ?v) ?n ?k ?s0] =>
      let Hreq := fresh "Hreq" in
      let Hd := fresh "Hd" in
      let Hn := fresh "Hn" in
      destruct (poll_country_probes client f conf v n k s0)
        as (probes & [[?|]|] & s' & -> & Hn & Hreq & Hd & Hflag)
  end.

(** The stages of an update before its wait, case by case. *)
Ltac stages :=
  repeat (simpl;
          match goal with
          | |- context [is_zero ?x] => destruct (is_zero x) eqn:?
          | |- context [match index ?m ?k with _ => _ end] =>
              destruct (index m k)
          | |- context [match ?f ?x with _ => _ end] => is_var f; destruct (f x)
          | |- context [serve_UpdateIP client ?f ?p ?r] =>
              destruct (serve_UpdateIP client f p r) as [[? [?|]] ?]
          | |- context [serve_UpdateCountry client ?f ?p ?r] =>
              destruct (serve_UpdateCountry client f p r) as [[? [?|]] ?]
          end).

(** X16: the log of an update has one shape. An update sends at most two
    update requests, then only probes of a single kind, the [GetCountry]
    of the identifier whenever a [country] block is configured and the
    [GetIP] otherwise, no more of them than fit before the deadline, and
    at the very end at most one [Get], the one of the read. With both
    blocks configured the IP side is never polled. *)
Theorem update_log_shape (ctx : Context) (s : St) :
  ∃ updates n reads,
    requests (Update ctx s).2
    = requests s ++ updates
      ++ replicate n
           (logged (if is_zero (index (attrs (d s)) "country")
                    then GetIPReq (Id (d s))
                    else GetCountryReq (Id (d s))) s)
      ++ reads
    ∧ (length updates ≤ 2)%nat
    ∧ (∀ c, c ∈ updates →
            (∃ p, issued c = UpdateIPReq p) ∨ (∃ p, issued c = UpdateCountryReq p))
    ∧ (n ≤ probes_before_deadline ctx)%nat
    ∧ (reads = [] ∨ reads = [logged (GetReq (Id (d s))) s]).
Proof.
  unfold authenticationStrengthResourceUpdate. run.
  destruct (DeepEqual _ _); stages.
  all: unfold WaitForStateContext; simpl.
  all: try wait_out; simpl.
  all: rewrite ?Read_requests, ?Hreq, ?Hd; unfold logged in *; simpl.
  all: rewrite <-?app_assoc; simpl.
  all: try congruence.
  all: match goal with
       | |- ∃ _ _ _, requests _ = requests _ ++ _ ∧ _ => exists [], 0%nat, []
       | |- ∃ _ _ _, requests _ ++ ?a :: ?b :: replicate ?n _ ++ ?r = _ ∧ _ =>
           exists [a; b], n, r
       | |- ∃ _ _ _, requests _ ++ ?a :: replicate ?n _ ++ ?r = _ ∧ _ =>
           exists [a], n, r
       | |- ∃ _ _ _, requests _ ++ ?a :: ?b :: replicate ?n _ = _ ∧ _ =>
           exists [a; b], n, []
       | |- ∃ _ _ _, requests _ ++ ?a :: replicate ?n _ = _ ∧ _ =>
           exists [a], n, []
       | |- ∃ _ _ _, requests _ ++ [?a; ?b] = _ ∧ _ => exists [a; b], 0%nat, []
       | |- ∃ _ _ _, requests _ ++ [?a] = _ ∧ _ => exists [a], 0%nat, []
       end.
  all: simpl; rewrite ?app_nil_r.
  all: split_and!;
    [ reflexivity
    | lia
    | intros c' Hc;
      repeat (apply elem_of_cons in Hc as [->|Hc]; [simpl; eauto|]);
      by apply elem_of_nil in Hc
    | lia
    | first [by left | right; simpl in *; congruence] ].
Qed.

(** X17: the update request names the resource and only what changed.
    In the [ip] branch the first request of an update is the [UpdateIP]
    of the expanded block with a base that carries the identifier of the
    resource data and, only when [display_name] changed against the prior
    state, the new display name; an unchanged display name is left nil. *)
Theorem update_sends_identifier_and_changed_name (ctx : Context) (s : St)
    name l properties :
  (changed (d s) "display_name" = true →
   index (attrs (d s)) "display_name" = VStr name) →
  index (attrs (d s)) "ip" = VList l →
  l ≠ [] →
  expandIPauthenticationStrength l = Some properties →
  ∃ rest,
    requests (Update ctx s).2
    = requests s
      ++ logged (UpdateIPReq (with_base (update_base (d s) name) properties)) s
         :: rest.
Proof.
  intros Hname Hip Hl Hexpand.
  unfold authenticationStrengthResourceUpdate. run.
  unfold with_base, update_base, changed, logged in *.
  destruct (DeepEqual _ _); simpl in *;
    [|rewrite Hname by done; simpl];
    rewrite Hip; simpl; rewrite bool_decide_eq_false_2 by done; simpl;
    rewrite Hexpand; stages.
  all: unfold WaitForStateContext; simpl.
  all: try wait_out; simpl.
  all: rewrite ?Read_requests, ?Hreq; simpl.
  all: rewrite <-?app_assoc; simpl.
  all: eexists; reflexivity.
Qed.

End Update_properties.

Section Delete_properties.

Context {R : Type}.
Variable client : Client R.
Variable deletionOccurrences : nat.

Abbreviation St := (state R).
Abbreviation DeleteResource :=
  (authenticationStrengthResourceDelete client deletionOccurrences).

(** The deletion wait, with the flag it leaves: reset once a check ran. *)
Lemma poll_deletion_state (conf : StateChangeConf) (id : string)
    (rounds seen : nat) (s : St) :
  ∃ n o s',
    poll conf (deletionRefresh (deletionCheck client id)) rounds seen s
    = (Val o, s')
    ∧ (n ≤ rounds)%nat
    ∧ requests s' = requests s ++ replicate n (check_call id)
    ∧ d s' = d s
    ∧ DisableRetries s' = (if n is O then DisableRetries s else false).
Proof.
  revert seen s. induction rounds as [|rounds IH]; intros seen s.
  - exists 0%nat. do 2 eexists. split; [reflexivity|].
    simpl. by rewrite app_nil_r.
  - rewrite poll_round, deletionRefresh_run.
    destruct (serve_Get client true id (remote s)) as [[[result status] err] r'].
    set (s1 := {| d := d s; remote := r'; DisableRetries := false;
                  requests := requests s ++ [check_call id] |}).
    assert (Hone : ∀ o : option error, ∃ n o' s',
               (Val o, s1) = (Val o', s') ∧ (n ≤ S rounds)%nat
               ∧ requests s' = requests s ++ replicate n (check_call id)
               ∧ d s' = d s
               ∧ DisableRetries s' = (if n is O then DisableRetries s else false)).
    { intros o. exists 1%nat, o, s1. split_and!; [done|lia|done..]. }
    assert (Hmore : ∀ seen', ∃ n o' s',
               poll conf (deletionRefresh (deletionCheck client id))
                 rounds seen' s1 = (Val o', s') ∧ (n ≤ S rounds)%nat
               ∧ requests s' = requests s ++ replicate n (check_call id)
               ∧ d s' = d s
               ∧ DisableRetries s' = (if n is O then DisableRetries s else false)).
    { intros seen'.
      destruct (IH seen' s1) as (n & o & s' & -> & Hn & Hreq & Hd & Hflag).
      exists (S n), o, s'. split_and!; [done|lia| |done|].
      - rewrite Hreq. simpl. by rewrite <-app_assoc.
      - rewrite Hflag. by destruct n. }
    destruct err as [e|]; [destruct (status =? StatusNotFound)|];
      repeat case_bool_decide; auto.
Qed.

(** The stages of a delete, case by case, up to the state after its wait. *)
Ltac delete_stages :=
  repeat (simpl;
          match goal with
          | |- context [is_zero ?x] => destruct (is_zero x) eqn:?
          | |- context [is_trusted ?x] => destruct (is_trusted x) eqn:?
          | |- context [serve_GetIP client ?f ?i ?r] =>
              destruct (serve_GetIP client f i r) as [[[? ?] [?|]] ?]
          | |- context [serve_UpdateIP client ?f ?p ?r] =>
              destruct (serve_UpdateIP client f p r) as [[? [?|]] ?]
          | |- context [serve_GetCountry client ?f ?i ?r] =>
              destruct (serve_GetCountry client f i r) as [[[? ?] [?|]] ?]
          | |- context [?x =? StatusNotFound] =>
              destruct (x =? StatusNotFound)
          | |- context [serve_Delete client ?f ?i ?r] =>
              destruct (serve_Delete client f i r) as [[? [?|]] ?]
          | |- context [WaitForDeletion deletionOccurrences ?ctx
                          (deletionCheck client ?i) ?s0] =>
              let Hn := fresh "Hn" in
              let Hreq := fresh "Hreq" in
              let Hd := fresh "Hd" in
              let Hflag := fresh "Hflag" in
              rewrite WaitForDeletion_poll;
              destruct (poll_deletion_state
                          {| Pending := ["Pending"]; Target := ["Absent"];
                             Timeout := probes_before_deadline ctx;
                             MinTimeout := 1;
                             ContinuousTargetOccurence := deletionOccurrences;
                             Refresh := Some (deletionRefresh
                                                (deletionCheck client i)) |}
                          i (probes_before_deadline ctx) 0%nat s0)
                as (n & [?|] & s' & -> & Hn & Hreq & Hd & Hflag)
          end).

(** X18: a delete never touches the resource data. On every path, with
    or without diagnostic, identifier and attributes after the delete are
    the ones before it; clearing the identifier is left to the caller. *)
Theorem delete_keeps_resource_data (ctx : Context) (s : St) :
  d (DeleteResource ctx s).2 = d s.
Proof.
  unfold authenticationStrengthResourceDelete. run. delete_stages; done.
Qed.

(** One way to cut the new part of a delete's log. *)
Ltac split_log lookups deletes n :=
  exists lookups, deletes, n;
  split_and!;
  [ simpl; rewrite ?app_nil_r; reflexivity
  | simpl; lia
  | let c := fresh "c" in
    let Hc := fresh "Hc" in
    intros c Hc;
    repeat (apply elem_of_cons in Hc as [->|Hc]; [auto|]);
    by apply elem_of_nil in Hc
  | first [left; split; reflexivity | right; reflexivity]
  | lia
  | reflexivity ].

(** X19: the log of a delete has one shape. A delete sends at most three
    lookup requests ([GetIP], the update that withdraws trust,
    [GetCountry]), then at most one delete request, then only deletion
    checks, no more than fit before the deadline and none unless the
    delete request was sent. Every request before the checks goes out
    under the flag the delete found; the checks go out with retries
    disabled, and once a check ran the flag is left at false. *)
Theorem delete_log_shape (ctx : Context) (s : St) :
  ∃ lookups deletes n,
    requests (DeleteResource ctx s).2
    = requests s ++ lookups ++ deletes
      ++ replicate n (check_call (Id (d s)))
    ∧ (length lookups ≤ 3)%nat
    ∧ (∀ c, c ∈ lookups →
            c = logged (GetIPReq (Id (d s))) s
            ∨ c = logged (UpdateIPReq (untrust (Id (d s)))) s
            ∨ c = logged (GetCountryReq (Id (d s))) s)
    ∧ ((deletes = [] ∧ n = 0%nat)
       ∨ deletes = [logged (DeleteReq (Id (d s))) s])
    ∧ (n ≤ probes_before_deadline ctx)%nat
    ∧ DisableRetries (DeleteResource ctx s).2
      = (if n is O then DisableRetries s else false).
Proof.
  unfold authenticationStrengthResourceDelete. run. delete_stages.
  all: simpl.
  all: repeat match goal with
              | H : requests ?x = _ |- context [requests ?x] => rewrite H
              | H : DisableRetries ?x = _ |- context [DisableRetries ?x] =>
                  rewrite H
              end.
  all: unfold logged, untrust; simpl; rewrite <-?app_assoc; simpl.
  all: match goal with
       | |- ∃ _ _ _, requests _ = requests _ ++ _ ∧ _ => split_log (@nil call) (@nil call) 0%nat
       | |- ∃ _ _ _, requests _ ++ ?a :: replicate ?n _ = _ ∧ _ =>
           split_log (@nil call) [a] n
       | |- ∃ _ _ _, requests _ ++ ?a :: ?b :: replicate ?n _ = _ ∧ _ =>
           split_log [a] [b] n
       | |- ∃ _ _ _, requests _ ++ ?a :: ?b :: ?c :: replicate ?n _ = _ ∧ _ =>
           split_log [a; b] [c] n
       | |- ∃ _ _ _,
             requests _ ++ ?a :: ?b :: ?c :: ?e :: replicate ?n _ = _ ∧ _ =>
           split_log [a; b; c] [e] n
       | |- ∃ _ _ _, requests _ ++ [?a] = _ ∧ _ =>
           first [split_log [a] (@nil call) 0%nat | split_log (@nil call) [a] 0%nat]
       | |- ∃ _ _ _, requests _ ++ [?a; ?b] = _ ∧ _ =>
           first [split_log [a; b] (@nil call) 0%nat | split_log [a] [b] 0%nat]
       | |- ∃ _ _ _, requests _ ++ [?a; ?b; ?c] = _ ∧ _ =>
           first [split_log [a; b; c] (@nil call) 0%nat | split_log [a; b] [c] 0%nat]
       | |- ∃ _ _ _, requests _ ++ [?a; ?b; ?c; ?e] = _ ∧ _ =>
           split_log [a; b; c] [e] 0%nat
       end.
Qed.

(** X20: without a configured block nothing is looked up, and not found
    is then an error. With neither [ip] nor [country] configured the
    delete request is the first request; when it fails, whatever the
    status, 404 included, the delete reports the error with the status and
    sends no deletion check. *)
Theorem delete_without_block_goes_straight (ctx : Context) (s : St)
    status e r' :
  is_zero (index (attrs (d s)) "ip") = true →
  is_zero (index (attrs (d s)) "country") = true →
  serve_Delete client (DisableRetries s) (Id (d s)) (remote s)
  = ((status, Some e), r') →
  DeleteResource ctx s =
    (Val (tf_ErrorDiagPathF e "id"
            "Deleting named location with ID %q, got status %d"
            [ArgStr (Id (d s)); ArgInt status]),
     sent (DeleteReq (Id (d s))) r' s).
Proof.
  intros Hip Hcountry Hdelete.
  unfold authenticationStrengthResourceDelete. run.
  rewrite Hip. simpl. rewrite Hcountry. simpl. by rewrite Hdelete.
Qed.

(** X21: a lookup that fails for another reason than not found ends the
    delete. When the [GetIP] of a configured [ip] block, or the
    [GetCountry] of a configured [country] block without an [ip] block,
    fails with a status other than 404, the delete reports that error
    under the attribute path [id]; the lookup is the only request sent,
    so nothing is deleted. *)
Theorem delete_lookup_failure_stops (ctx : Context) (s : St) status e :
  status ≠ StatusNotFound →
  (∀ resp r',
     is_zero (index (attrs (d s)) "ip") = false →
     serve_GetIP client (DisableRetries s) (Id (d s)) (remote s)
     = ((resp, status, Some e), r') →
     DeleteResource ctx s =
       (Val (tf_ErrorDiagPathF e "id" "Retrieving named location with ID %q"
               [ArgStr (Id (d s))]),
        sent (GetIPReq (Id (d s))) r' s))
  ∧ (∀ resp r',
       is_zero (index (attrs (d s)) "ip") = true →
       is_zero (index (attrs (d s)) "country") = false →
       serve_GetCountry client (DisableRetries s) (Id (d s)) (remote s)
       = ((resp, status, Some e), r') →
       DeleteResource ctx s =
         (Val (tf_ErrorDiagPathF e "id" "Retrieving named location with ID %q"
                 [ArgStr (Id (d s))]),
          sent (GetCountryReq (Id (d s))) r' s)).
Proof.
  intros Hstatus. apply Z.eqb_neq in Hstatus.
  split; unfold authenticationStrengthResourceDelete; run.
  - intros resp r' Hip Hget. rewrite Hip. simpl. rewrite Hget. simpl.
    by rewrite Hstatus.
  - intros resp r' Hip Hcountry Hget. rewrite Hip. simpl.
    rewrite Hcountry. simpl. rewrite Hget. simpl. by rewrite Hstatus.
Qed.

(** X22: when trust cannot be withdrawn nothing is deleted. For a
    location observed as trusted, when the update that sets [IsTrusted]
    to false fails, the delete reports that error and stops: the lookup
    and the update are the only requests, and no delete request is
    sent. *)
Theorem delete_untrust_failure_stops (ctx : Context) (s : St)
    resp status r1 ustatus e r2 :
  is_zero (index (attrs (d s)) "ip") = false →
  serve_GetIP client (DisableRetries s) (Id (d s)) (remote s)
  = ((resp, status, None), r1) →
  is_trusted resp = true →
  serve_UpdateIP client (DisableRetries s) (untrust (Id (d s))) r1
  = ((ustatus, Some e), r2) →
  DeleteResource ctx s =
    (Val (tf_ErrorDiagF e "Updating named location with ID %q"
            [ArgStr (Id (d s))]),
     sent (UpdateIPReq (untrust (Id (d s)))) r2
       (sent (GetIPReq (Id (d s))) r1 s)).
Proof.
  intros Hip Hget Htrusted Hupdate.
  unfold authenticationStrengthResourceDelete. run.
  rewrite Hip. simpl. rewrite Hget. simpl. rewrite Htrusted. simpl.
  unfold untrust in Hupdate. by rewrite Hupdate.
Qed.

(** X23: with both blocks configured, a location that is only an IP
    location is not deleted. When the [GetIP] lookup finds the location
    (not trusted) and the [GetCountry] lookup that follows answers not
    found, the delete returns without diagnostic after these two lookups:
    no delete request is sent for the location the first lookup found. *)
Theorem delete_both_blocks_country_not_found (ctx : Context) (s : St)
    resp status r1 countryResp e r2 :
  is_zero (index (attrs (d s)) "ip") = false →
  is_zero (index (attrs (d s)) "country") = false →
  serve_GetIP client (DisableRetries s) (Id (d s)) (remote s)
  = ((resp, status, None), r1) →
  is_trusted resp = false →
  serve_GetCountry client (DisableRetries s) (Id (d s)) r1
  = ((countryResp, StatusNotFound, Some e), r2) →
  DeleteResource ctx s =
    (Val [], sent (GetCountryReq (Id (d s))) r2
               (sent (GetIPReq (Id (d s))) r1 s)).
Proof.
  intros Hip Hcountry Hget Htrusted Hgetc.
  unfold authenticationStrengthResourceDelete. run.
  rewrite Hip. simpl. rewrite Hget. simpl. rewrite Htrusted. simpl.
  rewrite Hcountry. simpl. by rewrite Hgetc.
Qed.

End Delete_properties.

(** * Further properties of the policies client *)

Section Policies_methods.

Context {Query R : Type}.
Variable c : policies.Transport Query R.

Abbreviation wire := (policies.wire Query R).

(** Unfold a method of the client down to its transport call. *)
Ltac method :=
  unfold policies.List, policies.Create, policies.Get, policies.Delete,
    policies.decoded, policies.exchanged, policies.entity_of,
    policies.entity, deref, panic, mbind, M_bind, mret, M_ret;
  simpl.

(** The tail of the three reading methods. *)
Lemma decoded_result {A} (resp : option policies.Response) (status : Z)
    (unmarshal : string → A + error) (w : wire) res status' err :
  (policies.decoded resp status unmarshal w).1 = Val (res, status', err) →
  status' = status ∧ (res = None ↔ err ≠ None).
Proof.
  method. destruct resp as [[[respBody|e]]|]; simpl; [| |done].
  - destruct (unmarshal respBody); intros [= <- <- <-]; split; done.
  - intros [= <- <- <-]. split; done.
Qed.

Lemma decoded_state {A} (resp : option policies.Response) (status : Z)
    (unmarshal : string → A + error) (w : wire) :
  (policies.decoded resp status unmarshal w).2 = w.
Proof.
  method. destruct resp as [[[respBody|e]]|]; simpl; [|done..].
  by destruct (unmarshal respBody).
Qed.

(** X24: a result or an error, never both and never neither. Whenever
    [List], [Get] or [Create] returns, the result is nil exactly when the
    error is not: a transport failure, a body that cannot be read and a
    body that cannot be decoded all give a nil result with an error, and
    success gives a result without one. *)
Theorem policies_result_iff_no_error (w : wire) :
  (∀ query res status err,
     (policies.List c query w).1 = Val (res, status, err) →
     (res = None ↔ err ≠ None))
  ∧ (∀ id query res status err,
       (policies.Get c id query w).1 = Val (res, status, err) →
       (res = None ↔ err ≠ None))
  ∧ (∀ policy res status err,
       (policies.Create c policy w).1 = Val (res, status, err) →
       (res = None ↔ err ≠ None)).
Proof.
  split_and!.
  - intros query res status err.
    unfold policies.List, policies.exchanged, mbind, M_bind. simpl.
    destruct (policies.BaseClient_Get c _ _) as [[[resp tstatus] [e|]] r'];
      simpl.
    + intros [= <- <- <-]. done.
    + intros Hrun. by apply decoded_result in Hrun as [_ ?].
  - intros id query res status err.
    unfold policies.Get, policies.exchanged, mbind, M_bind. simpl.
    destruct (policies.BaseClient_Get c _ _) as [[[resp tstatus] [e|]] r'];
      simpl.
    + intros [= <- <- <-]. done.
    + intros Hrun. by apply decoded_result in Hrun as [_ ?].
  - intros policy res status err.
    unfold policies.Create, policies.exchanged, mbind, M_bind. simpl.
    destruct (policies.json_Marshal c policy) as [body|e]; simpl.
    + destruct (policies.BaseClient_Post c _ _)
        as [[[resp tstatus] [e|]] r']; simpl.
      * intros [= <- <- <-]. done.
      * intros Hrun. by apply decoded_result in Hrun as [_ ?].
    + intros [= <- <- <-]. done.
Qed.

(** X25: the status is the one of the transport. [List], [Get] and
    [Delete] return the status the base client gave, on success and on
    every failure, also when the failure is in reading or decoding the
    body; [Create] does so whenever the policy could be encoded. *)
Theorem policies_status_is_transport_status (w : wire) :
  (∀ query res status err,
     (policies.List c query w).1 = Val (res, status, err) →
     status = (policies.BaseClient_Get c (list_request query)
                 (policies.service w)).1.1.2)
  ∧ (∀ id query res status err,
       (policies.Get c id query w).1 = Val (res, status, err) →
       status = (policies.BaseClient_Get c (get_request id query)
                   (policies.service w)).1.1.2)
  ∧ (∀ id,
       ((policies.Delete c id w).1
        = Val ((policies.BaseClient_Delete c (delete_request id)
                  (policies.service w)).1.1.2,
               fmt_Errorf
                 "AuthenticationStrengthPoliciesClient.BaseClient.Delete(): "
               <$> (policies.BaseClient_Delete c (delete_request id)
                      (policies.service w)).1.2)))
  ∧ (∀ policy body res status err,
       policies.json_Marshal c policy = inl body →
       (policies.Create c policy w).1 = Val (res, status, err) →
       status = (policies.BaseClient_Post c (create_request body)
                   (policies.service w)).1.1.2).
Proof.
  split_and!.
  - intros query res status err.
    unfold policies.List, policies.exchanged, mbind, M_bind, list_request.
    simpl.
    destruct (policies.BaseClient_Get c _ _) as [[[resp tstatus] [e|]] r'];
      simpl.
    + by intros [= <- <- <-].
    + intros Hrun. by apply decoded_result in Hrun as [? _].
  - intros id query res status err.
    unfold policies.Get, policies.exchanged, mbind, M_bind, get_request.
    simpl.
    destruct (policies.BaseClient_Get c _ _) as [[[resp tstatus] [e|]] r'];
      simpl.
    + by intros [= <- <- <-].
    + intros Hrun. by apply decoded_result in Hrun as [? _].
  - intros id.
    unfold policies.Delete, policies.exchanged, mbind, M_bind, delete_request.
    simpl.
    by destruct (policies.BaseClient_Delete c _ _)
      as [[[resp tstatus] [e|]] r'].
  - intros policy body res status err Hbody.
    unfold policies.Create, policies.exchanged, mbind, M_bind, create_request.
    simpl. rewrite Hbody. simpl.
    destruct (policies.BaseClient_Post c _ _) as [[[resp tstatus] [e|]] r'];
      simpl.
    + by intros [= <- <- <-].
    + intros Hrun. by apply decoded_result in Hrun as [? _].
Qed.

(** What each method with a single request leaves in the log. *)
Lemma List_log (w : wire) query :
  policies.sent (policies.List c query w).2
  = policies.sent w ++ [policies.SentGet (list_request query)].
Proof.
  unfold policies.List, policies.exchanged, mbind, M_bind, list_request.
  simpl.
  destruct (policies.BaseClient_Get c _ _) as [[[resp tstatus] [e|]] r'];
    simpl; [done|]. by rewrite decoded_state.
Qed.

Lemma Get_log (w : wire) id query :
  policies.sent (policies.Get c id query w).2
  = policies.sent w ++ [policies.SentGet (get_request id query)].
Proof.
  unfold policies.Get, policies.exchanged, mbind, M_bind, get_request.
  simpl.
  destruct (policies.BaseClient_Get c _ _) as [[[resp tstatus] [e|]] r'];
    simpl; [done|]. by rewrite decoded_state.
Qed.

Lemma Delete_log (w : wire) id :
  policies.sent (policies.Delete c id w).2
  = policies.sent w ++ [policies.SentDelete (delete_request id)].
Proof.
  unfold policies.Delete, policies.exchanged, mbind, M_bind, delete_request.
  simpl.
  by destruct (policies.BaseClient_Delete c _ _)
    as [[[resp tstatus] [e|]] r'].
Qed.

(** X26: one call, one request. [List], [Get] and [Delete] send exactly
    one request on every path, panics included; [Create] sends exactly one
    request when the policy can be encoded, and when it cannot it returns
    the encoder's error with status 0 and sends nothing. *)
Theorem policies_send_one_request (w : wire) :
  (∀ query,
     policies.sent (policies.List c query w).2
     = policies.sent w ++ [policies.SentGet (list_request query)])
  ∧ (∀ id query,
       policies.sent (policies.Get c id query w).2
       = policies.sent w ++ [policies.SentGet (get_request id query)])
  ∧ (∀ id,
       policies.sent (policies.Delete c id w).2
       = policies.sent w ++ [policies.SentDelete (delete_request id)])
  ∧ (∀ policy,
       match policies.json_Marshal c policy with
       | inl body =>
           policies.sent (policies.Create c policy w).2
           = policies.sent w ++ [policies.SentPost (create_request body)]
       | inr e =>
           policies.Create c policy w
           = (Val (None, 0, Some (fmt_Errorf "json.Marshal(): " e)), w)
       end).
Proof.
  split_and!.
  - apply List_log.
  - apply Get_log.
  - apply Delete_log.
  - intros policy.
    unfold policies.Create, policies.exchanged, mbind, M_bind, create_request.
    simpl.
    destruct (policies.json_Marshal c policy) as [body|e]; simpl; [|done].
    destruct (policies.BaseClient_Post c _ _) as [[[resp tstatus] [e|]] r'];
      simpl; [done|]. by rewrite decoded_state.
Qed.

End Policies_methods.

(** X27: an update sends at most one request. [Update] sends exactly one
    PATCH, to the URI of the policy's ID with the encoded policy as body,
    when the ID is not nil and the policy can be encoded, and then returns
    the status of the transport and its error, if any, under the name of
    the call; in every other case it sends nothing, leaves the service as
    it was and returns status 0 with an error. *)
Theorem Update_sends_at_most_one_patch {R} (c : msgraph.BaseClient R)
    (policy : msgraph.AuthenticationStrengthPolicy) (w : msgraph.wire R) :
  match msgraph.ID policy, msgraph.json_Marshal c policy with
  | Some id, inl body =>
      let answer := (msgraph.Patch c (update_request id body)
                       (msgraph.service w)).1 in
      msgraph.sent (msgraph.Update c policy w).2
      = msgraph.sent w ++ [update_request id body]
      ∧ (msgraph.Update c policy w).1
        = Val (answer.1,
               fmt_Errorf
                 "AuthenticationStrengthPoliciesClient.BaseClient.Patch(): "
               <$> answer.2)
  | Some id, inr e =>
      msgraph.Update c policy w
      = (Val (0, Some (fmt_Errorf "json.Marshal(): " e)), w)
  | None, _ =>
      msgraph.Update c policy w
      = (Val (0, Some "cannot update AuthenticationStrengthPolicy with nil ID"),
         w)
  end.
Proof.
  unfold msgraph.Update, update_request.
  destruct (msgraph.ID policy) as [id|]; [|done].
  destruct (msgraph.json_Marshal c policy) as [body|e]; [|done].
  unfold mbind, M_bind, msgraph.BaseClient_Patch. simpl.
  by destruct (msgraph.Patch c _ _) as [[status [e|]] r'].
Qed.

(** X28: the methods that take an ID address the same entity. For one
    ID, [Get] reads the URI that [Update] patches, [Delete] removes the
    [$ref] below that URI, and all three ask for the retry on a 404 that
    comes from replication lag, whereas [List] does not. *)
Theorem policies_address_same_entity {Query R R'}
    (c : policies.Transport Query R) (u : msgraph.BaseClient R')
    (id body : string) (query : Query)
    (policy : msgraph.AuthenticationStrengthPolicy)
    (w : policies.wire Query R) (wu : msgraph.wire R') :
  msgraph.ID policy = Some id →
  msgraph.json_Marshal u policy = inl body →
  ∃ got patched deleted listed,
    policies.sent (policies.Get c id query w).2
    = policies.sent w ++ [policies.SentGet got]
    ∧ msgraph.sent (msgraph.Update u policy wu).2
      = msgraph.sent wu ++ [patched]
    ∧ policies.sent (policies.Delete c id w).2
      = policies.sent w ++ [policies.SentDelete deleted]
    ∧ policies.sent (policies.List c query w).2
      = policies.sent w ++ [policies.SentGet listed]
    ∧ policies.Get_Uri_Entity got = msgraph.Uri_Entity patched
    ∧ policies.Delete_Uri_Entity deleted
      = String.app (msgraph.Uri_Entity patched) "/$ref"
    ∧ policies.Get_ConsistencyFailureFunc got
      = msgraph.ConsistencyFailure patched
    ∧ policies.Delete_ConsistencyFailureFunc deleted
      = msgraph.ConsistencyFailure patched
    ∧ msgraph.ConsistencyFailure patched
      = Some msgraph.RetryOn404ConsistencyFailureFunc
    ∧ policies.Get_ConsistencyFailureFunc listed = None.
Proof.
  intros Hid Hbody.
  destruct (Update_with_ID u policy wu id body Hid Hbody)
    as (patched & Hupdate & Huri & _).
  assert (Hretry : msgraph.ConsistencyFailure patched
                   = Some msgraph.RetryOn404ConsistencyFailureFunc).
  { revert Hupdate. unfold msgraph.Update. rewrite Hid, Hbody.
    unfold mbind, M_bind, msgraph.BaseClient_Patch. simpl.
    destruct (msgraph.Patch u _ _) as [[status [e|]] r']; simpl;
      intros Heq; by apply app_inv_head in Heq as [= <-]. }
  exists (get_request id query), patched, (delete_request id),
    (list_request query).
  rewrite Get_log, Delete_log, List_log, Huri, Hretry.
  split_and!; done.
Qed.

(** * Further runs against the scripted client *)

Section More_runs.

Import scripted.

(** The create of an office and the create of a country location: each
    continues as the read of the identifier the service returned, after
    the create request and before anything else. *)
Lemma create_reads_right_after_create_witness :
  let ip_properties :=
    with_base base {| IPBase := None; IPRanges := Some ["10.0.0.0/8"];
                      IsTrusted := Some true |} in
  let country_properties :=
    with_country_base base
      {| CountryBase := None; CountriesAndRegions := Some ["NO"; "SE"];
         IncludeUnknownCountriesAndRegions := Some false |} in
  let stored id :=
    set_d (λ rd, {| Id := id; attrs := attrs rd; prior := prior rd |}) in
  (scripted.Create creating
   = scripted.Read
       (stored office_id
          (sent (CreateIPReq ip_properties)
             [found (IsIP (office "Head office" false))] creating))
   ∧ requests (scripted.Create creating).2
     = [{| issued := CreateIPReq ip_properties; retries_disabled := false |};
        {| issued := GetReq office_id; retries_disabled := false |}])
  ∧ (scripted.Create creating_country
     = scripted.Read
         (stored office_id
            (sent (CreateCountryReq country_properties)
               [found (IsCountry nordics)] creating_country))
     ∧ requests (scripted.Create creating_country).2
       = [{| issued := CreateCountryReq country_properties;
             retries_disabled := false |};
          {| issued := GetReq office_id; retries_disabled := false |}]).
Proof.
  intros ip_properties country_properties stored. split.
  - apply (proj2 (proj1 (create_reads_right_after_create
                           client flattenIP flattenCountry expandIP
                           expandCountry base creating)
                    "Head office" "sample"
                    (flattenIP (Some (office "Head office" true)))
                    {| IPBase := None; IPRanges := Some ["10.0.0.0/8"];
                       IsTrusted := Some true |}
                    (Some (office "Head office" false)) 201 None
                    [found (IsIP (office "Head office" false))]
                    eq_refl eq_refl eq_refl ltac:(discriminate)
                    eq_refl eq_refl)
             (office "Head office" false)
             {| ID := Some office_id; DisplayName := Some "Head office" |}
             (Ascii.ascii_of_nat 53) "a3b9fa6-7d0e-42c5-b0f3-0d3b6c1f2a11"
             eq_refl eq_refl eq_refl eq_refl).
  - apply (proj2 (proj1 (proj2 (create_reads_right_after_create
                           client flattenIP flattenCountry expandIP
                           expandCountry base creating_country))
                    "Nordics" "sample"
                    (flattenCountry (Some nordics))
                    {| CountryBase := None;
                       CountriesAndRegions := Some ["NO"; "SE"];
                       IncludeUnknownCountriesAndRegions := Some false |}
                    (Some nordics) 201 None
                    [found (IsCountry nordics)]
                    eq_refl eq_refl eq_refl eq_refl ltac:(discriminate)
                    eq_refl eq_refl)
             nordics
             {| ID := Some office_id; DisplayName := Some "Nordics" |}
             (Ascii.ascii_of_nat 53) "a3b9fa6-7d0e-42c5-b0f3-0d3b6c1f2a11"
             eq_refl eq_refl eq_refl eq_refl).
Defined.

(** The read of [outage] fails and leaves the resource data alone. *)
Lemma read_failure_leaves_data_witness :
  d (scripted.Read outage).2 = d outage
  ∧ ∀ diags diag,
      (scripted.Read outage).1 = Val diags → diag ∈ diags →
      Detail diag = "Bad API response" ∧ AttributePath diag = EmptyString.
Proof.
  apply (read_failure_leaves_data client flattenIP flattenCountry outage).
  vm_compute. discriminate.
Defined.

(** The read of a location that is gone clears the identifier. *)
Lemma read_not_found_clears_id_witness :
  (scripted.Read already_gone).1 = Val []
  ∧ Id (d (scripted.Read already_gone).2) = EmptyString
  ∧ attrs (d (scripted.Read already_gone).2) = attrs (d already_gone).
Proof.
  apply (read_not_found_clears_id client flattenIP flattenCountry
           already_gone None "not found").
  reflexivity.
Defined.

(** The read of a location without base panics. *)
Lemma read_nil_base_panics_witness :
  (scripted.Read headless).1
  = Panic "invalid memory address or nil pointer dereference"
  ∧ d (scripted.Read headless).2 = d headless.
Proof.
  apply (read_nil_base_panics client flattenIP flattenCountry headless
           (IsIP {| IPBase := None; IPRanges := None; IsTrusted := None |})
           200 None);
    reflexivity.
Defined.

(** The error beside a location makes no difference to the read. *)
Lemma read_ignores_error_beside_result_witness :
  authenticationStrengthResourceRead client flattenIP flattenCountry
    half_failed
  = authenticationStrengthResourceRead forgiving flattenIP flattenCountry
      half_failed.
Proof.
  apply (read_ignores_error_beside_result client forgiving
           flattenIP flattenCountry half_failed
           (IsIP (office "Head office" true)) 500
           "connection reset by peer" []);
    [reflexivity|reflexivity|discriminate].
Defined.

(** A create without a block is refused before anything is sent. *)
Lemma create_needs_a_block_witness :
  authenticationStrengthResourceCreate client flattenIP flattenCountry
    expandIP expandCountry base (unconfigured [])
  = (Val (tf_ErrorDiagF "one of `ip` or `country` must be specified"
            "Unable to determine named location type" []),
     unconfigured []).
Proof.
  apply (create_needs_a_block client flattenIP flattenCountry
           expandIP expandCountry base (unconfigured [])
           "Head office" "sample");
    reflexivity.
Defined.

(** With both blocks configured the create request is the IP one. *)
Lemma create_prefers_ip_witness :
  ∃ new,
    requests (authenticationStrengthResourceCreate client flattenIP
                flattenCountry expandIP expandCountry base create_both).2
    = requests create_both ++ new
    ∧ ∀ c p, c ∈ new → issued c ≠ CreateCountryReq p.
Proof.
  apply (create_prefers_ip client flattenIP flattenCountry
           expandIP expandCountry base create_both).
  reflexivity.
Defined.

(** A rejected create request leaves identifier and attributes alone. *)
Lemma create_without_identifier_stores_nothing_witness :
  (scripted.Create create_rejected).1
  = Val (tf_ErrorDiagF "bad request" "Could not create named location" [])
  ∧ d (scripted.Create create_rejected).2 = d create_rejected.
Proof.
  unfold scripted.Create.
  rewrite (proj1 (create_without_identifier_stores_nothing
                    client flattenIP flattenCountry expandIP expandCountry
                    base create_rejected "Head office" "sample"
                    (flattenIP (Some (office "Head office" true)))
                    {| IPBase := None; IPRanges := Some ["10.0.0.0/8"];
                       IsTrusted := Some true |}
                    None 400 (Some "bad request") []
                    eq_refl eq_refl eq_refl ltac:(discriminate)
                    eq_refl eq_refl)
             "bad request" eq_refl).
  split; reflexivity.
Defined.

(** A create whose read-back is not found ends with an empty identifier
    and no diagnostic. *)
Lemma create_then_not_found_witness :
  (scripted.Create create_then_gone).1 = Val []
  ∧ Id (d (scripted.Create create_then_gone).2) = EmptyString.
Proof.
  destruct (create_then_not_found
              client flattenIP flattenCountry expandIP expandCountry
              base create_then_gone "Head office" "sample"
              (flattenIP (Some (office "Head office" true)))
              {| IPBase := None; IPRanges := Some ["10.0.0.0/8"];
                 IsTrusted := Some true |}
              (office "Head office" true)
              {| ID := Some office_id; DisplayName := Some "Head office" |}
              (Ascii.ascii_of_nat 53) "a3b9fa6-7d0e-42c5-b0f3-0d3b6c1f2a11" 201
              [not_found] None "not found"
              eq_refl eq_refl eq_refl ltac:(discriminate)
              eq_refl eq_refl eq_refl eq_refl eq_refl)
    as (Hdiags & Hid & _).
  split; [exact Hdiags|exact Hid].
Defined.

(** A fetch that fails is reported under [Error]. *)
Lemma refresh_reports_fetch_error_witness :
  (updateRefreshFunc_ip client flattenIP (ip_block true) outage).1
  = Val (VNil, "Error", Some "connection reset by peer").
Proof.
  apply (proj1 (refresh_reports_fetch_error client flattenIP flattenCountry
                  (ip_block true) outage)
           None 500 "connection reset by peer").
  reflexivity.
Defined.

(** A fetch without location counts as converged. *)
Lemma refresh_empty_observation_is_updated_witness :
  (updateRefreshFunc_ip client flattenIP (ip_block true) nothing_fetched).1
  = Val (VStr "stub", "Updated", None).
Proof.
  apply (proj1 (refresh_empty_observation_is_updated
                  client flattenIP flattenCountry
                  (ip_block true) nothing_fetched)
           None 200);
    reflexivity.
Defined.

(** Other ranges are reported as pending. *)
Lemma refresh_ip_compares_ranges_first_witness :
  (updateRefreshFunc_ip client flattenIP (ip_block true) moved).1
  = Val (VStr "stub", "Pending", None).
Proof.
  apply (proj1 (refresh_ip_compares_ranges_first client flattenIP
                  (ip_block true) moved
                  (Some {| IPBase := IPBase (office "Head office" true);
                           IPRanges := Some ["192.168.0.0/16"];
                           IsTrusted := Some true |})
                  200
                  (<["ip_ranges" := strings (Some ["192.168.0.0/16"])]>
                     (<["trusted" := VBool true]> ∅)) []
                  (<["ip_ranges" := strings (Some ["10.0.0.0/8"])]>
                     (<["trusted" := VBool true]> ∅)) []
                  eq_refl eq_refl eq_refl)).
  apply DeepEqual_neq. vm_compute. reflexivity.
Defined.

(** An update without a block panics before it sends anything. *)
Lemma update_without_block_panics_witness :
  ∃ msg, scripted.Update ten_probes (unconfigured [])
         = (Panic msg, unconfigured []).
Proof.
  apply (update_without_block_panics client flattenIP flattenCountry
           expandIP expandCountry ten_probes (unconfigured []));
    reflexivity.
Defined.

(** A rejected update request is reported, and nothing else happens. *)
Lemma update_stops_on_failure_witness :
  (scripted.Update ten_probes update_rejected).1
  = Val (tf_ErrorDiagF "bad request"
           "Could not update named location with ID %q: %+v"
           [ArgStr office_id; ArgErr "bad request"])
  ∧ length (requests (scripted.Update ten_probes update_rejected).2) = 1%nat.
Proof.
  unfold scripted.Update.
  rewrite (update_stops_on_failure client flattenIP flattenCountry
             expandIP expandCountry ten_probes update_rejected "New name"
             (flattenIP (Some (office "Head office" true)))
             {| IPBase := None; IPRanges := Some ["10.0.0.0/8"];
                IsTrusted := Some true |}
             400 "bad request" []
             (λ _, eq_refl) eq_refl ltac:(discriminate) eq_refl eq_refl).
  split; reflexivity.
Defined.

(** The update of [renamed] sends the identifier and the new name. *)
Lemma update_sends_identifier_and_changed_name_witness :
  ∃ rest,
    requests (scripted.Update ten_probes renamed).2
    = {| issued :=
           UpdateIPReq
             {| IPBase := Some {| ID := Some office_id;
                                  DisplayName := Some "New name" |};
                IPRanges := Some ["10.0.0.0/8"];
                IsTrusted := Some true |};
         retries_disabled := false |} :: rest.
Proof.
  destruct (update_sends_identifier_and_changed_name
              client flattenIP flattenCountry expandIP expandCountry
              ten_probes renamed "New name"
              (flattenIP (Some (office "Head office" true)))
              {| IPBase := None; IPRanges := Some ["10.0.0.0/8"];
                 IsTrusted := Some true |}
              (λ _, eq_refl) eq_refl ltac:(discriminate) eq_refl)
    as [rest Hrest].
  exists rest. exact Hrest.
Defined.

(** Without a block, a delete request answered with 404 is an error. *)
Lemma delete_without_block_goes_straight_witness :
  (scripted.Delete 3 ten_probes delete_unconfigured).1
  = Val (tf_ErrorDiagPathF "not found" "id"
           "Deleting named location with ID %q, got status %d"
           [ArgStr office_id; ArgInt 404]).
Proof.
  unfold scripted.Delete.
  rewrite (delete_without_block_goes_straight client 3 ten_probes
             delete_unconfigured 404 "not found" []
             eq_refl eq_refl eq_refl).
  reflexivity.
Defined.

(** A lookup that fails with status 500 ends the delete. *)
Lemma delete_lookup_failure_stops_witness :
  scripted.Delete 3 ten_probes outage
  = (Val (tf_ErrorDiagPathF "connection reset by peer" "id"
            "Retrieving named location with ID %q" [ArgStr office_id]),
     sent (GetIPReq office_id) [] outage).
Proof.
  apply (proj1 (delete_lookup_failure_stops client 3 ten_probes outage 500
                  "connection reset by peer" ltac:(discriminate))
           None []);
    reflexivity.
Defined.

(** When trust cannot be withdrawn the office is not deleted. *)
Lemma delete_untrust_failure_stops_witness :
  (scripted.Delete 3 ten_probes untrust_rejected).1
  = Val (tf_ErrorDiagF "forbidden" "Updating named location with ID %q"
           [ArgStr office_id])
  ∧ length (requests (scripted.Delete 3 ten_probes untrust_rejected).2)
    = 2%nat.
Proof.
  unfold scripted.Delete.
  rewrite (delete_untrust_failure_stops client 3 ten_probes untrust_rejected
             (Some (office "Head office" true)) 200
             [ReplyStatus 403 (Some "forbidden")] 403 "forbidden" []
             eq_refl eq_refl eq_refl eq_refl).
  split; reflexivity.
Defined.

(** With both blocks configured an IP location is left in place. *)
Lemma delete_both_blocks_country_not_found_witness :
  (scripted.Delete 3 ten_probes delete_both).1 = Val []
  ∧ requests (scripted.Delete 3 ten_probes delete_both).2
    = [{| issued := GetIPReq office_id; retries_disabled := false |};
       {| issued := GetCountryReq office_id; retries_disabled := false |}].
Proof.
  unfold scripted.Delete.
  rewrite (delete_both_blocks_country_not_found client 3 ten_probes
             delete_both (Some (office "Head office" false)) 200
             [not_found] None "not found" []
             eq_refl eq_refl eq_refl eq_refl eq_refl).
  split; reflexivity.
Defined.

(** A body that cannot be decoded gives no result and an error. *)
Lemma policies_result_iff_no_error_witness :
  (policies.Get garbled "00000000-0000-0000-0000-000000000004" tt idle).1
  = Val (None, 200, Some "json.Unmarshal(): invalid character '<'")
  ∧ ((None : option msgraph.AuthenticationStrengthPolicy) = None
     ↔ Some "json.Unmarshal(): invalid character '<'" ≠ (None : option error)).
Proof.
  split; [reflexivity|].
  apply (proj1 (proj2 (policies_result_iff_no_error garbled idle))
           "00000000-0000-0000-0000-000000000004" tt None 200
           (Some "json.Unmarshal(): invalid character '<'")).
  reflexivity.
Defined.

(** The status of a response that cannot be decoded is still returned. *)
Lemma policies_status_is_transport_status_witness :
  (policies.Get garbled "00000000-0000-0000-0000-000000000004" tt idle).1
  = Val (None, 200, Some "json.Unmarshal(): invalid character '<'")
  ∧ 200 = (policies.BaseClient_Get garbled
             (get_request "00000000-0000-0000-0000-000000000004" tt)
             (policies.service idle)).1.1.2.
Proof.
  split; [reflexivity|].
  apply (proj1 (proj2 (policies_status_is_transport_status garbled idle))
           "00000000-0000-0000-0000-000000000004" tt None 200
           (Some "json.Unmarshal(): invalid character '<'")).
  reflexivity.
Defined.

(** [Get], [Update] and [Delete] of one policy address one entity. *)
Lemma policies_address_same_entity_witness :
  ∃ got patched deleted,
    policies.Get_Uri_Entity (Query := unit) got = msgraph.Uri_Entity patched
    ∧ policies.Delete_Uri_Entity deleted
      = String.app (msgraph.Uri_Entity patched) "/$ref"
    ∧ msgraph.sent (msgraph.Update accepting saved_policy
                      {| msgraph.service := tt; msgraph.sent := [] |}).2
      = [patched].
Proof.
  destruct (policies_address_same_entity garbled accepting
              "00000000-0000-0000-0000-000000000004" "{}" tt saved_policy
              idle {| msgraph.service := tt; msgraph.sent := [] |}
              eq_refl eq_refl)
    as (got & patched & deleted & listed & _ & Hupdate & _ & _
        & Hget & Hdelete & _).
  exists got, patched, deleted. split_and!; [exact Hget|exact Hdelete|].
  exact Hupdate.
Defined.

End More_runs.
